(** * Immutable-retention policy of the GCP provider extension

    Shallow embedding of
      - pkg/admission/validator/seed.go  (module [validator]),
      - pkg/gcp/client/storage.go        (module [client], the parser only),
    and the properties of the retention policy proved over it.

    The two Go files call [encoding/json.Unmarshal] and
    [time.ParseDuration].  Both belong to the Go standard library, not to
    the repository, so the embedded functions take them as section
    variables and the policy lemmas hold for every implementation of the
    two.  Modules [GoTime] and [GoJSON] give an executable reference model
    of the two library functions; it is what the closed examples run on. *)

From Stdlib Require Import ZArith NArith List Bool Lia Sorted.
From Stdlib.Strings Require Import String Ascii Byte.
Import ListNotations.

Set Warnings "-register-all".

Local Open Scope string_scope.
Local Open Scope Z_scope.

(** ** Go values shared by both packages *)

(** A Go [error] is an interface value: [nil] or something with a message. *)
Definition error := option string.

Definition errors_New (msg : string) : error := Some msg.

(** [time.Duration] is an [int64] count of nanoseconds. *)
Definition Duration := Z.

(** [runtime.RawExtension]; only the [Raw] bytes are read. *)
Record RawExtension := { Raw : list byte }.

(** The double quote character. *)
Definition dq : string := String (ascii_of_nat 34) EmptyString.

(** [Contains sub s]: [sub] occurs in [s] (gomega's [ContainSubstring]). *)
Definition Contains (sub s : string) : Prop :=
  exists pre post, s = pre ++ sub ++ post.

(** A statement either returns from the function or falls through. *)
Definition orElse (stmt rest : error) : error :=
  match stmt with
  | Some msg => Some msg
  | None => rest
  end.

Notation "s1 ;;; s2" := (orElse s1 s2) (at level 61, right associativity).

(** What a call does: it returns, or it dereferences a nil pointer. *)
Inductive outcome (A : Type) : Type :=
| Done (a : A)
| Panic.

Arguments Done {A} a.
Arguments Panic {A}.

Definition deref {A B : Type} (p : option A) (k : A -> outcome B) : outcome B :=
  match p with
  | Some a => k a
  | None => Panic
  end.

(** ** The Seed resource (github.com/gardener/gardener, v1beta1)

    Only the path [Spec.Backup.ProviderConfig] is read.  [Backup] and
    [ProviderConfig] are pointers. *)
Record SeedBackup := { ProviderConfig : option RawExtension }.
Record SeedSpec := { Backup : option SeedBackup }.
Record Seed := { Spec : SeedSpec }.

(** [client.Object]: a (non-nil) [*v1beta1.Seed], or a value of some other
    type, named as [%T] prints it. *)
Inductive Object : Type :=
| SeedObject (s : Seed)
| OtherObject (typeName : string).

(** ** pkg/admission/validator/seed.go *)
Module validator.

Record ImmutableSettings := {
  RetentionType : string;
  RetentionPeriod : Duration
}.

(** [ImmutableSettingsJSON]; the projections carry the prefix [json_]
    because they would clash with those of [ImmutableSettings]. *)
Record ImmutableSettingsJSON := {
  json_RetentionType : string;
  json_RetentionPeriod : string
}.

(** The anonymous struct [config] of [ParseImmutableSettings]. *)
Record config := { cfg_ImmutableSettings : option ImmutableSettingsJSON }.

Definition config_zero : config := {| cfg_ImmutableSettings := None |}.

(** [validateImmutableSettings]; the callers pass a non-nil pointer. *)
Definition validateImmutableSettings (imSettings : ImmutableSettings) : error :=
  if negb (RetentionType imSettings =? "bucket")%string then
    Some ("invalid retentionType '" ++ RetentionType imSettings
          ++ "'; must be 'bucket'")
  else if RetentionPeriod imSettings <=? 0 then
    errors_New "retentionPeriod must be greater than zero"
  else None.

Section WithStdlib.

(** [json.Unmarshal(raw, &config)]: the decoded struct and the error. *)
Variable json_Unmarshal : list byte -> config -> config * error.
(** [time.ParseDuration]. *)
Variable time_ParseDuration : string -> Duration * error.

Definition ParseImmutableSettings (providerConfig : option RawExtension)
  : option ImmutableSettings * error :=
  match providerConfig with
  | None => (None, None)
  | Some pc =>
    if (List.length (Raw pc) =? 0)%nat then (None, None)
    else
      let '(config, err) := json_Unmarshal (Raw pc) config_zero in
      match err with
      | Some e => (None, Some ("error while parsing immutable settings: " ++ e))
      | None =>
        match cfg_ImmutableSettings config with
        | None => (None, None)
        | Some js =>
          let '(duration, err) := time_ParseDuration (json_RetentionPeriod js) in
          match err with
          | Some e => (None, Some ("invalid retentionPeriod format: " ++ e))
          | None =>
            (Some {| RetentionType := json_RetentionType js;
                     RetentionPeriod := duration |}, None)
          end
        end
      end
  end.

Definition validateCreate (newSeed : Seed) : outcome error :=
  deref (Backup (Spec newSeed)) (fun newBackup =>
  let '(newImSettings, err) := ParseImmutableSettings (ProviderConfig newBackup) in
  match err with
  | Some e => Done (Some ("error parsing immutable settings: " ++ e))
  | None =>
    Done (
      match newImSettings with
      | Some n => validateImmutableSettings n
      | None => None
      end ;;;
      None)
  end).

Definition validateUpdate (oldSeed newSeed : Seed) : outcome error :=
  deref (Backup (Spec oldSeed)) (fun oldBackup =>
  let '(oldImSettings, err) := ParseImmutableSettings (ProviderConfig oldBackup) in
  match err with
  | Some e => Done (Some ("error parsing old immutable settings: " ++ e))
  | None =>
    deref (Backup (Spec newSeed)) (fun newBackup =>
    let '(newImSettings, err) := ParseImmutableSettings (ProviderConfig newBackup) in
    match err with
    | Some e => Done (Some ("error parsing new immutable settings: " ++ e))
    | None =>
      Done (
        (* Ensure that immutable settings are not disabled *)
        match newImSettings, oldImSettings with
        | None, Some _ => errors_New "disabling immutable settings is not allowed"
        | _, _ => None
        end ;;;
        (* Ensure the retention period is not reduced *)
        match newImSettings, oldImSettings with
        | Some n, Some o =>
          (if RetentionPeriod n <? RetentionPeriod o
           then errors_New "reducing the retention period is not allowed"
           else None) ;;;
          (* Ensure other aspects of immutable settings have not been altered *)
          (if negb (RetentionType n =? RetentionType o)%string
           then errors_New "modifying the retention type is not allowed"
           else None)
        | _, _ => None
        end ;;;
        (* If immutable settings are newly added, validate them *)
        match oldImSettings, newImSettings with
        | None, Some n => validateImmutableSettings n
        | _, _ => None
        end ;;;
        None)
    end)
  end).

(** [Validate]: [oldObj] is nil on creation. *)
Definition Validate (newObj : Object) (oldObj : option Object) : outcome error :=
  match newObj with
  | OtherObject t => Done (Some ("wrong object type " ++ t ++ " for new object"))
  | SeedObject newSeed =>
    match oldObj with
    | Some (OtherObject t) =>
      Done (Some ("wrong object type " ++ t ++ " for old object"))
    | Some (SeedObject oldSeed) => validateUpdate oldSeed newSeed
    | None => validateCreate newSeed
    end
  end.

End WithStdlib.

End validator.

(** ** pkg/gcp/client/storage.go *)
Module client.

Record ImmutableSettings := {
  RetentionType : string;
  RetentionPeriod : Duration
}.

Record ImmutableSettingsJSON := {
  json_RetentionType : string;
  json_RetentionPeriod : string
}.

(** Here the field of [config] is a struct value, not a pointer. *)
Record config := { cfg_ImmutableSettings : ImmutableSettingsJSON }.

Definition config_zero : config :=
  {| cfg_ImmutableSettings :=
       {| json_RetentionType := ""; json_RetentionPeriod := "" |} |}.

Section WithStdlib.

Variable json_Unmarshal : list byte -> config -> config * error.
Variable time_ParseDuration : string -> Duration * error.

Definition ParseImmutableSettings (providerConfig : option RawExtension)
  : option ImmutableSettings * error :=
  match providerConfig with
  | None => (None, errors_New "providerConfig is either empty or nil")
  | Some pc =>
    if (List.length (Raw pc) =? 0)%nat then
      (None, errors_New "providerConfig is either empty or nil")
    else
      let '(config, err) := json_Unmarshal (Raw pc) config_zero in
      match err with
      | Some e => (None, Some ("error while parsing immutable settings: " ++ e))
      | None =>
        let js := cfg_ImmutableSettings config in
        if negb (json_RetentionType js =? "bucket")%string then
          (None, Some ("invalid retentionType '" ++ json_RetentionType js
                       ++ "'; must be 'bucket'"))
        else
          let '(duration, err) := time_ParseDuration (json_RetentionPeriod js) in
          match err with
          | Some e => (None, Some ("invalid retentionPeriod format: " ++ e))
          | None =>
            (Some {| RetentionType := json_RetentionType js;
                     RetentionPeriod := duration |}, None)
          end
      end
  end.

End WithStdlib.

End client.

(** ** Reference model of [time.ParseDuration] (Go standard library)

    The function follows src/time/format.go: unsigned 64-bit accumulators
    with the explicit overflow tests of the original.  One departure: Go
    computes the contribution of a fractional part in [float64]
    ([uint64(float64(f) * (float64(unit) / scale))]); here it is the exact
    truncated quotient.  No statement below depends on fractional input. *)
Module GoTime.

Definition u64 (z : Z) : Z := z mod 2 ^ 64.
Definition int64 (z : Z) : Z := (z + 2 ^ 63) mod 2 ^ 64 - 2 ^ 63.

Definition isDigit (c : ascii) : bool :=
  let n := nat_of_ascii c in ((48 <=? n) && (n <=? 57))%nat.

Definition digit (c : ascii) : Z := Z.of_nat (nat_of_ascii c) - 48.

Definition lowerhex (n : nat) : ascii :=
  nth n (list_ascii_of_string "0123456789abcdef") "0"%char.

(** [quote]: bytes outside printable ASCII are written [\xHH], the double
    quote and the backslash are escaped. *)
Fixpoint quote_body (s : string) : string :=
  match s with
  | EmptyString => EmptyString
  | String c rest =>
    let n := nat_of_ascii c in
    if ((128 <=? n) || (n <? 32))%nat then
      String "\" (String "x" (String (lowerhex (n / 16))
        (String (lowerhex (n mod 16)) (quote_body rest))))
    else if ((n =? 34) || (n =? 92))%nat then
      String "\" (String c (quote_body rest))
    else String c (quote_body rest)
  end.

Definition quote (s : string) : string := dq ++ quote_body s ++ dq.

(** [leadingInt]: [None] is [errLeadingInt]. *)
Fixpoint leadingInt (s : string) (x : Z) : option (Z * string) :=
  match s with
  | EmptyString => Some (x, s)
  | String c rest =>
    if negb (isDigit c) then Some (x, s)
    else if x >? 2 ^ 63 / 10 then None
    else
      let x' := u64 (x * 10 + digit c) in
      if x' >? 2 ^ 63 then None else leadingInt rest x'
  end.

(** [leadingFraction]: digits after the point; [scale] is the power of ten
    of the digits kept. *)
Fixpoint leadingFraction (s : string) (x scale : Z) (overflow : bool)
  : Z * Z * string :=
  match s with
  | EmptyString => (x, scale, s)
  | String c rest =>
    if negb (isDigit c) then (x, scale, s)
    else if overflow then leadingFraction rest x scale overflow
    else if x >? (2 ^ 63 - 1) / 10 then leadingFraction rest x scale true
    else
      let y := u64 (x * 10 + digit c) in
      if y >? 2 ^ 63 then leadingFraction rest x scale true
      else leadingFraction rest y (scale * 10) overflow
  end.

(** The unit: everything up to the next ['.'] or digit. *)
Fixpoint splitUnit (s : string) : string * string :=
  match s with
  | EmptyString => (EmptyString, EmptyString)
  | String c rest =>
    if (c =? ".")%char || isDigit c then (EmptyString, s)
    else let '(u, r) := splitUnit rest in (String c u, r)
  end.

(** U+00B5 and U+03BC, in UTF-8, followed by [s]. *)
Definition micro_sign_s : string :=
  String (ascii_of_nat 194) (String (ascii_of_nat 181) "s").
Definition greek_mu_s : string :=
  String (ascii_of_nat 206) (String (ascii_of_nat 188) "s").

Definition unitMap (u : string) : option Z :=
  if (u =? "ns")%string then Some 1
  else if (u =? "us")%string then Some 1000
  else if (u =? micro_sign_s)%string then Some 1000
  else if (u =? greek_mu_s)%string then Some 1000
  else if (u =? "ms")%string then Some 1000000
  else if (u =? "s")%string then Some 1000000000
  else if (u =? "m")%string then Some 60000000000
  else if (u =? "h")%string then Some 3600000000000
  else None.

(** The optional point and digits: the fraction, its scale, what
    follows, and whether a digit was read after the point. *)
Definition fraction (s : string) : Z * Z * string * bool :=
  match s with
  | String c r =>
    if (c =? ".")%char then
      let '(f, scale, r') := leadingFraction r 0 1 false in
      (f, scale, r', negb (String.length r =? String.length r')%nat)
    else (0, 1, s, false)
  | EmptyString => (0, 1, s, false)
  end.

Definition invalidDuration (orig : string) : Duration * error :=
  (0, Some ("time: invalid duration " ++ quote orig)).

(** The loop over the text that remains; [fuel] bounds the number of
    iterations and [None] means it ran out. *)
Fixpoint parseLoop (fuel : nat) (orig s : string) (neg : bool) (d : Z)
  : option (Duration * error) :=
  match s with
  | EmptyString =>
    Some (if neg then (int64 (- int64 d), None)
          else if d >? 2 ^ 63 - 1 then invalidDuration orig
          else (int64 d, None))
  | String c _ =>
    match fuel with
    | O => None
    | S fuel' =>
      if negb ((c =? ".")%char || isDigit c) then Some (invalidDuration orig)
      else
        match leadingInt s 0 with
        | None => Some (invalidDuration orig)
        | Some (v, s1) =>
          let pre := negb (String.length s =? String.length s1)%nat in
          let '(f, scale, s2, post) := fraction s1 in
          if negb pre && negb post then Some (invalidDuration orig)
          else
            let '(u, s3) := splitUnit s2 in
            if (String.length u =? 0)%nat then
              Some (0, Some ("time: missing unit in duration " ++ quote orig))
            else
              match unitMap u with
              | None =>
                Some (0, Some ("time: unknown unit " ++ quote u
                               ++ " in duration " ++ quote orig))
              | Some unit =>
                if v >? 2 ^ 63 / unit then Some (invalidDuration orig)
                else
                  let v1 := u64 (v * unit) in
                  let v2 := if f >? 0 then u64 (v1 + f * unit / scale) else v1 in
                  if (f >? 0) && (v2 >? 2 ^ 63) then Some (invalidDuration orig)
                  else
                    let d' := u64 (d + v2) in
                    if d' >? 2 ^ 63 then Some (invalidDuration orig)
                    else parseLoop fuel' orig s3 neg d'
              end
        end
    end
  end.

Definition ParseDuration (s : string) : Duration * error :=
  let orig := s in
  let '(neg, s) :=
    match s with
    | String c rest =>
      if (c =? "-")%char || (c =? "+")%char then ((c =? "-")%char, rest)
      else (false, s)
    | EmptyString => (false, s)
    end in
  if (s =? "0")%string then (0, None)
  else if (s =? "")%string then invalidDuration orig
  else
    match parseLoop (String.length s) orig s neg 0 with
    | Some r => r
    | None => invalidDuration orig
    end.

End GoTime.

(** ** Reference model of [encoding/json.Unmarshal] (Go standard library)

    A JSON reader (RFC 8259 grammar) followed by Go's rules for storing a
    document into a struct: members are taken in order, a key selects the
    field with that exact name or else the one equal to it under case
    folding, unknown keys are skipped, [null] resets a pointer and leaves
    any other target as it is, an object stored through a nil pointer
    allocates the struct, a value of the wrong kind is recorded as the
    error and decoding goes on, and the first recorded error is returned.
    As in Go, a document that opens more than 10000 arrays and objects
    inside one another is refused.  Departures from Go: the texts of the
    errors are schematic and ill-formed UTF-8 inside a string is kept as
    it is (Go substitutes U+FFFD). *)
Module GoJSON.

Inductive value : Type :=
| Null
| Bool (b : bool)
| Number (lit : string)
| Str (s : string)
| Arr (elems : list value)
| Obj (members : list (string * value)).

Definition code (c : ascii) : N := N_of_ascii c.

Definition isSpace (c : ascii) : bool :=
  ((code c =? 32) || (code c =? 9) || (code c =? 13) || (code c =? 10))%N.

Fixpoint skipSpace (s : string) : string :=
  match s with
  | String c rest => if isSpace c then skipSpace rest else s
  | EmptyString => s
  end.

(** *** String literals *)

Definition hexVal (c : ascii) : option N :=
  let n := code c in
  if ((48 <=? n) && (n <=? 57))%N then Some (n - 48)%N
  else if ((97 <=? n) && (n <=? 102))%N then Some (n - 87)%N
  else if ((65 <=? n) && (n <=? 70))%N then Some (n - 55)%N
  else None.

Definition hex4 (a b c d : ascii) : option N :=
  match hexVal a, hexVal b, hexVal c, hexVal d with
  | Some x, Some y, Some z, Some w => Some (((x * 16 + y) * 16 + z) * 16 + w)%N
  | _, _, _, _ => None
  end.

Definition chr (n : N) : string := String (ascii_of_N n) EmptyString.

(** UTF-8 encoding of a code point below 0x110000. *)
Definition utf8 (r : N) : string :=
  (if r <? 128 then chr r
   else if r <? 2048 then chr (192 + r / 64) ++ chr (128 + r mod 64)
   else if r <? 65536 then
     chr (224 + r / 4096) ++ chr (128 + (r / 64) mod 64) ++ chr (128 + r mod 64)
   else
     chr (240 + r / 262144) ++ chr (128 + (r / 4096) mod 64)
     ++ chr (128 + (r / 64) mod 64) ++ chr (128 + r mod 64))%N.

Definition replacementChar : N := 65533.

Definition isSurrogate (r : N) : bool := ((55296 <=? r) && (r <? 57344))%N.

(** [utf16.DecodeRune]. *)
Definition decodeSurrogates (r1 r2 : N) : N :=
  (if (55296 <=? r1) && (r1 <? 56320) && (56320 <=? r2) && (r2 <? 57344)
   then (r1 - 55296) * 1024 + (r2 - 56320) + 65536
   else replacementChar)%N.

Definition simpleEscape (c : ascii) : option N :=
  let n := code c in
  (if (n =? 34) || (n =? 92) || (n =? 47) then Some n
   else if n =? 98 then Some 8
   else if n =? 102 then Some 12
   else if n =? 110 then Some 10
   else if n =? 114 then Some 13
   else if n =? 116 then Some 9
   else None)%N.

Definition prepend (p : string) (r : option (string * string))
  : option (string * string) :=
  match r with
  | Some (body, rest) => Some (p ++ body, rest)
  | None => None
  end.

(** The text after an opening quote: the decoded string and what follows
    the closing quote. *)
Fixpoint scanString (s : string) : option (string * string) :=
  match s with
  | EmptyString => None
  | String c rest =>
    if (code c =? 34)%N then Some (EmptyString, rest)
    else if (code c =? 92)%N then
      match rest with
      | EmptyString => None
      | String e rest1 =>
        if (code e =? 117)%N then
          match rest1 with
          | String h1 (String h2 (String h3 (String h4 rest2))) =>
            match hex4 h1 h2 h3 h4 with
            | None => None
            | Some r =>
              if isSurrogate r then
                match rest2 with
                | String b (String u (String l1 (String l2 (String l3
                    (String l4 rest3))))) =>
                  match (if ((code b =? 92) && (code u =? 117))%N
                         then hex4 l1 l2 l3 l4 else None) with
                  | Some r2 =>
                    if (decodeSurrogates r r2 =? replacementChar)%N
                    then prepend (utf8 replacementChar) (scanString rest2)
                    else prepend (utf8 (decodeSurrogates r r2)) (scanString rest3)
                  | None => prepend (utf8 replacementChar) (scanString rest2)
                  end
                | _ => prepend (utf8 replacementChar) (scanString rest2)
                end
              else prepend (utf8 r) (scanString rest2)
            end
          | _ => None
          end
        else
          match simpleEscape e with
          | Some n => prepend (chr n) (scanString rest1)
          | None => None
          end
      end
    else if (code c <? 32)%N then None
    else prepend (String c EmptyString) (scanString rest)
  end.

(** *** Numbers *)

Definition isDigit (c : ascii) : bool := ((48 <=? code c) && (code c <=? 57))%N.

Fixpoint scanDigits (s : string) : string * string :=
  match s with
  | String c rest =>
    if isDigit c then let '(ds, r) := scanDigits rest in (String c ds, r)
    else (EmptyString, s)
  | EmptyString => (EmptyString, s)
  end.

(** One or more digits. *)
Definition scanDigits1 (s : string) : option (string * string) :=
  let '(ds, r) := scanDigits s in
  if (String.length ds =? 0)%nat then None else Some (ds, r).

Definition scanInt (s : string) : option (string * string) :=
  match s with
  | String c rest =>
    if (code c =? 48)%N then Some (String c EmptyString, rest)
    else scanDigits1 s
  | EmptyString => None
  end.

Definition scanFrac (s : string) : option (string * string) :=
  match s with
  | String c rest =>
    if (code c =? 46)%N then prepend (String c EmptyString) (scanDigits1 rest)
    else Some (EmptyString, s)
  | EmptyString => Some (EmptyString, s)
  end.

Definition scanExp (s : string) : option (string * string) :=
  match s with
  | String c rest =>
    if ((code c =? 101) || (code c =? 69))%N then
      match rest with
      | String sg rest1 =>
        if ((code sg =? 43) || (code sg =? 45))%N
        then prepend (String c (String sg EmptyString)) (scanDigits1 rest1)
        else prepend (String c EmptyString) (scanDigits1 rest)
      | EmptyString => None
      end
    else Some (EmptyString, s)
  | EmptyString => Some (EmptyString, s)
  end.

Definition scanNumber (s : string) : option (string * string) :=
  let '(sign, s0) :=
    match s with
    | String c rest => if (code c =? 45)%N then ("-", rest) else (EmptyString, s)
    | EmptyString => (EmptyString, s)
    end in
  match scanInt s0 with
  | None => None
  | Some (i, s1) =>
    match scanFrac s1 with
    | None => None
    | Some (f, s2) =>
      match scanExp s2 with
      | None => None
      | Some (e, s3) => Some (sign ++ i ++ f ++ e, s3)
      end
    end
  end.

(** [s] starts with [lit]: what follows it. *)
Fixpoint stripPrefix (lit s : string) : option string :=
  match lit, s with
  | EmptyString, _ => Some s
  | String a lit', String b s' => if (a =? b)%char then stripPrefix lit' s' else None
  | String _ _, EmptyString => None
  end.

(** *** Values *)

(** [maxNestingDepth] of the scanner. *)
Definition maxNestingDepth : N := 10000.

(** [depth] counts the arrays and objects that are open around the value;
    opening one more at [maxNestingDepth] is the error "exceeded max
    depth". *)
Fixpoint parseValue (fuel : nat) (depth : N) (s : string)
  : option (value * string) :=
  match fuel with
  | O => None
  | S fuel' =>
    match skipSpace s with
    | EmptyString => None
    | String c rest as s0 =>
      if (code c =? 123)%N then
        if (maxNestingDepth <=? depth)%N then None
        else
          match skipSpace rest with
          | String c1 rest1 as s1 =>
            if (code c1 =? 125)%N then Some (Obj [], rest1)
            else parseMembers fuel' (depth + 1)%N s1 []
          | EmptyString => None
          end
      else if (code c =? 91)%N then
        if (maxNestingDepth <=? depth)%N then None
        else
          match skipSpace rest with
          | String c1 rest1 as s1 =>
            if (code c1 =? 93)%N then Some (Arr [], rest1)
            else parseElements fuel' (depth + 1)%N s1 []
          | EmptyString => None
          end
      else if (code c =? 34)%N then
        match scanString rest with
        | Some (str, r) => Some (Str str, r)
        | None => None
        end
      else if (code c =? 116)%N then
        match stripPrefix "true" s0 with
        | Some r => Some (Bool true, r)
        | None => None
        end
      else if (code c =? 102)%N then
        match stripPrefix "false" s0 with
        | Some r => Some (Bool false, r)
        | None => None
        end
      else if (code c =? 110)%N then
        match stripPrefix "null" s0 with
        | Some r => Some (Null, r)
        | None => None
        end
      else
        match scanNumber s0 with
        | Some (lit, r) => Some (Number lit, r)
        | None => None
        end
    end
  end

(** [s] is at the quote opening a key; [acc] holds the members read so
    far, last first. *)
with parseMembers (fuel : nat) (depth : N) (s : string)
  (acc : list (string * value)) : option (value * string) :=
  match fuel with
  | O => None
  | S fuel' =>
    match s with
    | String q rest =>
      if negb (code q =? 34)%N then None
      else
        match scanString rest with
        | None => None
        | Some (key, r1) =>
          match skipSpace r1 with
          | String colon r2 =>
            if negb (code colon =? 58)%N then None
            else
              match parseValue fuel' depth r2 with
              | None => None
              | Some (v, r3) =>
                match skipSpace r3 with
                | String c r4 =>
                  if (code c =? 44)%N then
                    parseMembers fuel' depth (skipSpace r4) ((key, v) :: acc)
                  else if (code c =? 125)%N then
                    Some (Obj (rev ((key, v) :: acc)), r4)
                  else None
                | EmptyString => None
                end
              end
          | EmptyString => None
          end
        end
    | EmptyString => None
    end
  end

with parseElements (fuel : nat) (depth : N) (s : string) (acc : list value)
  : option (value * string) :=
  match fuel with
  | O => None
  | S fuel' =>
    match parseValue fuel' depth s with
    | None => None
    | Some (v, r1) =>
      match skipSpace r1 with
      | String c r2 =>
        if (code c =? 44)%N then parseElements fuel' depth r2 (v :: acc)
        else if (code c =? 93)%N then Some (Arr (rev (v :: acc)), r2)
        else None
      | EmptyString => None
      end
    end
  end.

(** A whole document: one value and nothing but white space after it. *)
Definition parse (s : string) : option value :=
  match parseValue (2 * String.length s + 2) 0 s with
  | Some (v, rest) =>
    match skipSpace rest with
    | EmptyString => Some v
    | String _ _ => None
    end
  | None => None
  end.

(** *** Storing a document into a Go value *)

Definition kind (v : value) : string :=
  match v with
  | Null => "null"
  | Bool _ => "bool"
  | Number _ => "number"
  | Str _ => "string"
  | Arr _ => "array"
  | Obj _ => "object"
  end.

Definition typeError (v : value) (ty : string) : error :=
  Some ("json: cannot unmarshal " ++ kind v ++ " into Go value of type " ++ ty).

(** What reflection knows of a target type: its name, its zero value and
    how a document is stored into a value of it. *)
Class Unmarshaler (T : Type) := {
  goType : string;
  zero : T;
  decode : value -> T -> T * error
}.

#[global] Instance string_Unmarshaler : Unmarshaler string := {
  goType := "string";
  zero := EmptyString;
  decode v old :=
    match v with
    | Null => (old, None)
    | Str s => (s, None)
    | _ => (old, typeError v "string")
    end
}.

#[global] Instance pointer_Unmarshaler {T : Type} `{Unmarshaler T}
  : Unmarshaler (option T) := {
  goType := "*" ++ goType;
  zero := None;
  decode v old :=
    match v with
    | Null => (None, None)
    | _ =>
      let '(x, e) := decode v (match old with Some x => x | None => zero end) in
      (Some x, e)
    end
}.

(** A struct field with a [json] tag. *)
Record field (T : Type) := {
  name : string;
  store : value -> T -> T * error
}.

Arguments name {T} f.
Arguments store {T} f.

(** [foldName] restricted to what matters against an ASCII name: letters
    go to upper case, U+017F to [S] and U+212A to [K]. *)
Fixpoint foldName (s : string) : string :=
  match s with
  | EmptyString => EmptyString
  | String c rest =>
    if ((97 <=? code c) && (code c <=? 122))%N then
      String (ascii_of_N (code c - 32)) (foldName rest)
    else
      match rest with
      | String c2 rest2 =>
        if ((code c =? 197) && (code c2 =? 191))%N then String "S" (foldName rest2)
        else
          match rest2 with
          | String c3 rest3 =>
            if ((code c =? 226) && (code c2 =? 132) && (code c3 =? 170))%N
            then String "K" (foldName rest3)
            else String c (foldName rest)
          | EmptyString => String c (foldName rest)
          end
      | EmptyString => String c (foldName rest)
      end
  end.

Definition findField {T : Type} (fields : list (field T)) (key : string)
  : option (field T) :=
  match find (fun f => (name f =? key)%string) fields with
  | Some f => Some f
  | None => find (fun f => (foldName (name f) =? foldName key)%string) fields
  end.

Fixpoint decodeMembers {T : Type} (fields : list (field T))
  (members : list (string * value)) (t : T) (saved : error) : T * error :=
  match members with
  | [] => (t, saved)
  | (key, v) :: rest =>
    match findField fields key with
    | None => decodeMembers fields rest t saved
    | Some f =>
      let '(t', e) := store f v t in
      decodeMembers fields rest t' (match saved with Some _ => saved | None => e end)
    end
  end.

Definition decodeStruct {T : Type} (ty : string) (fields : list (field T))
  (v : value) (old : T) : T * error :=
  match v with
  | Null => (old, None)
  | Obj members => decodeMembers fields members old None
  | _ => (old, typeError v ty)
  end.

(** [json.Unmarshal(data, &v)]: a syntax error is found before anything
    is stored. *)
Definition Unmarshal {T : Type} `{Unmarshaler T} (data : list byte) (v : T)
  : T * error :=
  match parse (string_of_list_byte data) with
  | None => (v, Some "invalid JSON input")
  | Some doc => decode doc v
  end.

(** The structs of pkg/admission/validator. *)
#[global] Instance validator_settings : Unmarshaler validator.ImmutableSettingsJSON := {
  goType := "validator.ImmutableSettingsJSON";
  zero := {| validator.json_RetentionType := EmptyString;
             validator.json_RetentionPeriod := EmptyString |};
  decode :=
    decodeStruct "validator.ImmutableSettingsJSON"
      [ {| name := "retentionType";
           store v t :=
             let '(x, e) := decode v (validator.json_RetentionType t) in
             ({| validator.json_RetentionType := x;
                 validator.json_RetentionPeriod := validator.json_RetentionPeriod t |}, e) |};
        {| name := "retentionPeriod";
           store v t :=
             let '(x, e) := decode v (validator.json_RetentionPeriod t) in
             ({| validator.json_RetentionType := validator.json_RetentionType t;
                 validator.json_RetentionPeriod := x |}, e) |} ]
}.

#[global] Instance validator_config : Unmarshaler validator.config := {
  goType := "struct { ImmutableSettings *validator.ImmutableSettingsJSON }";
  zero := validator.config_zero;
  decode :=
    decodeStruct "struct { ImmutableSettings *validator.ImmutableSettingsJSON }"
      [ {| name := "immutableSettings";
           store v t :=
             let '(x, e) := decode v (validator.cfg_ImmutableSettings t) in
             ({| validator.cfg_ImmutableSettings := x |}, e) |} ]
}.

(** The structs of pkg/gcp/client. *)
#[global] Instance client_settings : Unmarshaler client.ImmutableSettingsJSON := {
  goType := "client.ImmutableSettingsJSON";
  zero := {| client.json_RetentionType := EmptyString;
             client.json_RetentionPeriod := EmptyString |};
  decode :=
    decodeStruct "client.ImmutableSettingsJSON"
      [ {| name := "retentionType";
           store v t :=
             let '(x, e) := decode v (client.json_RetentionType t) in
             ({| client.json_RetentionType := x;
                 client.json_RetentionPeriod := client.json_RetentionPeriod t |}, e) |};
        {| name := "retentionPeriod";
           store v t :=
             let '(x, e) := decode v (client.json_RetentionPeriod t) in
             ({| client.json_RetentionType := client.json_RetentionType t;
                 client.json_RetentionPeriod := x |}, e) |} ]
}.

#[global] Instance client_config : Unmarshaler client.config := {
  goType := "struct { ImmutableSettings client.ImmutableSettingsJSON }";
  zero := client.config_zero;
  decode :=
    decodeStruct "struct { ImmutableSettings client.ImmutableSettingsJSON }"
      [ {| name := "immutableSettings";
           store v t :=
             let '(x, e) := decode v (client.cfg_ImmutableSettings t) in
             ({| client.cfg_ImmutableSettings := x |}, e) |} ]
}.

End GoJSON.

(** ** The two packages linked against the reference library *)
Module linked.

Definition ParseImmutableSettings :=
  validator.ParseImmutableSettings GoJSON.Unmarshal GoTime.ParseDuration.
Definition validateCreate :=
  validator.validateCreate GoJSON.Unmarshal GoTime.ParseDuration.
Definition validateUpdate :=
  validator.validateUpdate GoJSON.Unmarshal GoTime.ParseDuration.
Definition Validate :=
  validator.Validate GoJSON.Unmarshal GoTime.ParseDuration.
Definition client_ParseImmutableSettings :=
  client.ParseImmutableSettings GoJSON.Unmarshal GoTime.ParseDuration.

End linked.

(** ** Payloads and seeds of the test table (ValidateUpdate, ValidateCreate) *)
Module fixtures.

Definition q (s : string) : string := dq ++ s ++ dq.

Definition raw (text : string) : option RawExtension :=
  Some {| Raw := list_byte_of_string text |}.

(** [{"immutableSettings":{"retentionType":ty,"retentionPeriod":period}}] *)
Definition settings (ty period : string) : option RawExtension :=
  raw ("{" ++ q "immutableSettings" ++ ":{" ++ q "retentionType" ++ ":" ++ q ty
       ++ "," ++ q "retentionPeriod" ++ ":" ++ q period ++ "}}").

(** [{"immutableSettings":{}}] *)
Definition settings_empty_object : option RawExtension :=
  raw ("{" ++ q "immutableSettings" ++ ":{}}").

(** [{"immutableSettings":{"retentionType":"foo"}}] *)
Definition settings_type_only : option RawExtension :=
  raw ("{" ++ q "immutableSettings" ++ ":{" ++ q "retentionType" ++ ":" ++ q "foo" ++ "}}").

(** [{"immutableSettings":null}] *)
Definition settings_null : option RawExtension :=
  raw ("{" ++ q "immutableSettings" ++ ":null}").

(** [{"other":1}] *)
Definition other_field : option RawExtension :=
  raw ("{" ++ q "other" ++ ":1}").

(** A payload of zero bytes. *)
Definition empty_payload : option RawExtension := Some {| Raw := [] |}.

Definition seed (providerConfig : option RawExtension) : Seed :=
  {| Spec := {| Backup := Some {| ProviderConfig := providerConfig |} |} |}.

Definition seed_without_backup : Seed := {| Spec := {| Backup := None |} |}.

End fixtures.

(** ** pkg/gcp/client/storage.go: the bucket operations

    [CreateBucketIfNotExists] and [DeleteObjectsWithPrefix] call the
    cloud.google.com/go/storage SDK; its answers are section variables.
    [DeleteBucketIfExists] is left out: it is [IgnoreNotFoundError], which
    is defined in another file of the package. *)
Module storageClient.

(** The errors of the SDK, as far as the code tells them apart. *)
Inductive goerror : Type :=
| GoogleAPIError (Code : Z) (Message : string)
| IteratorDone
| ErrObjectNotExist
| OtherError (Message : string).

Definition errCodeBucketAlreadyOwnedByYou : Z := 409.

(** The fields of [storage.BucketAttrs] the code sets; the others keep
    their zero value. *)
Record RetentionPolicy := {
  RetentionPeriod : Duration;
  IsLocked : bool
}.

Record UniformBucketLevelAccess := { Enabled : bool }.

Record SoftDeletePolicy := { RetentionDuration : Duration }.

Record BucketAttrs := {
  Name : string;
  Location : string;
  attrs_RetentionPolicy : option RetentionPolicy;
  attrs_UniformBucketLevelAccess : UniformBucketLevelAccess;
  attrs_SoftDeletePolicy : option SoftDeletePolicy
}.

Section WithSDK.

(** [s.client.Bucket(bucketName).Create(ctx, projectID, attrs)]. *)
Variable Bucket_Create : string -> string -> BucketAttrs -> option goerror.

(** [projectID] is [s.serviceAccount.ProjectID]. *)
Definition CreateBucketIfNotExists (projectID bucketName region : string)
  (imSettings : option client.ImmutableSettings) : option goerror :=
  let retentionPolicy :=
    match imSettings with
    | Some s =>
      Some {| RetentionPeriod := client.RetentionPeriod s; IsLocked := true |}
    | None => None
    end in
  match Bucket_Create bucketName projectID
          {| Name := bucketName;
             Location := region;
             attrs_RetentionPolicy := retentionPolicy;
             attrs_UniformBucketLevelAccess := {| Enabled := true |};
             attrs_SoftDeletePolicy := Some {| RetentionDuration := 0 |} |} with
  | Some err =>
    match err with
    | GoogleAPIError code _ =>
      if code =? errCodeBucketAlreadyOwnedByYou then None else Some err
    | _ => Some err
    end
  | None => None
  end.

(** The answer of the [k]-th call of [itr.Next()], for the iterator over
    the objects of [bucketName] under [prefix]: the name of an object or an
    error. *)
Variable Objects_Next : string -> string -> nat -> string + goerror.
(** The answer of [bucketHandle.Object(name).Delete(ctx)] in the [k]-th
    turn of the loop. *)
Variable Object_Delete : string -> nat -> string -> option goerror.

(** The [for] loop from its [k]-th turn on.  [called] lists the objects
    [Delete] was called on so far; [fuel] bounds the number of turns and
    [None] means it ran out. *)
Fixpoint deleteLoop (bucketName prefix : string) (fuel k : nat)
  (called : list string) : option (option goerror * list string) :=
  match fuel with
  | O => None
  | S fuel' =>
    match Objects_Next bucketName prefix k with
    | inr err =>
      match err with
      | IteratorDone => Some (None, called)
      | _ => Some (Some err, called)
      end
    | inl name =>
      match Object_Delete bucketName k name with
      | Some err =>
        match err with
        | ErrObjectNotExist => deleteLoop bucketName prefix fuel' (S k) (called ++ [name])%list
        | _ => Some (Some err, (called ++ [name])%list)
        end
      | None => deleteLoop bucketName prefix fuel' (S k) (called ++ [name])%list
      end
    end
  end.

(** The error returned and the objects [Delete] was called on, in order. *)
Definition DeleteObjectsWithPrefix (fuel : nat) (bucketName prefix : string)
  : option (option goerror * list string) :=
  deleteLoop bucketName prefix fuel 0 [].

End WithSDK.

End storageClient.

(** ** The policy as relations

    What the validator is compared with: the shape a settings value must
    have and the transitions between settings that keep them immutable. *)
Module policy.

Definition shape_valid (s : validator.ImmutableSettings) : Prop :=
  validator.RetentionType s = "bucket" /\ 0 < validator.RetentionPeriod s.

Definition creation_allowed (n : option validator.ImmutableSettings) : Prop :=
  match n with
  | None => True
  | Some s => shape_valid s
  end.

Definition transition_allowed (o n : option validator.ImmutableSettings) : Prop :=
  match o, n with
  | None, None => True
  | None, Some s => shape_valid s
  | Some _, None => False
  | Some o', Some n' =>
    validator.RetentionPeriod o' <= validator.RetentionPeriod n'
    /\ validator.RetentionType n' = validator.RetentionType o'
  end.

End policy.

(** ** A scripted storage service, to run the bucket operations on *)
Module script.

Import storageClient.

(** The listing answers [names] one by one, then [ending]. *)
Definition next_of (names : list string) (ending : goerror)
  (bucketName prefix : string) (k : nat) : string + goerror :=
  match nth_error names k with
  | Some name => inl name
  | None => inr ending
  end.

(** Deleting [gone] reports that the object does not exist, deleting
    [locked] is refused, every other deletion succeeds. *)
Definition delete_of (gone locked : string) (bucketName : string) (k : nat)
  (name : string) : option goerror :=
  if (name =? gone)%string then Some ErrObjectNotExist
  else if (name =? locked)%string then Some (GoogleAPIError 403 "retention policy not met")
  else None.

(** The service answers every creation with [answer]. *)
Definition create_of (answer : option goerror) (bucketName projectID : string)
  (attrs : BucketAttrs) : option goerror := answer.

End script.

(** * Properties *)

(** ** Strings *)

Lemma Contains_prefix (p s : string) : Contains p (p ++ s).
Proof.
  exists EmptyString, s. reflexivity.
Qed.

Lemma string_app_assoc (a b c : string) : (a ++ b) ++ c = a ++ b ++ c.
Proof.
  induction a as [|x a IH]; simpl; [reflexivity | now rewrite IH].
Qed.

Lemma string_app_nil_r (a : string) : a ++ EmptyString = a.
Proof.
  induction a as [|x a IH]; simpl; [reflexivity | now rewrite IH].
Qed.

Lemma Contains_suffix (p s : string) : Contains s (p ++ s).
Proof.
  exists p, EmptyString. now rewrite string_app_nil_r.
Qed.

Lemma Contains_middle (p m s : string) : Contains m (p ++ m ++ s).
Proof.
  exists p, s. reflexivity.
Qed.

Lemma Contains_app_l (sub p s : string) : Contains sub s -> Contains sub (p ++ s).
Proof.
  intros (a & b & ->). exists (p ++ a), b. now rewrite string_app_assoc.
Qed.

(** ** The statement sequencing *)

Lemma orElse_None_l (e : error) : None ;;; e = e.
Proof. reflexivity. Qed.

Lemma orElse_None_r (e : error) : e ;;; None = e.
Proof. now destruct e. Qed.

(** ** The policy engine, for any JSON decoder and any duration parser *)
Section Policy.

Variable json_Unmarshal : list byte -> validator.config -> validator.config * error.
Variable time_ParseDuration : string -> Duration * error.

Local Notation "'Parse'" :=
  (validator.ParseImmutableSettings json_Unmarshal time_ParseDuration).
Local Notation "'Create'" :=
  (validator.validateCreate json_Unmarshal time_ParseDuration).
Local Notation "'Update'" :=
  (validator.validateUpdate json_Unmarshal time_ParseDuration).

Import validator.

(** *** [ParseImmutableSettings] *)

Lemma Parse_nil : Parse None = (None, None).
Proof. reflexivity. Qed.

Lemma Parse_empty (pc : RawExtension) : Raw pc = [] -> Parse (Some pc) = (None, None).
Proof.
  intros H. unfold ParseImmutableSettings. now rewrite H.
Qed.

Lemma length_eqb_nonempty (A : Type) (l : list A) :
  l <> [] -> (List.length l =? 0)%nat = false.
Proof.
  destruct l; [congruence | reflexivity].
Qed.

(** A payload the decoder accepts: the rest of the function. *)
Lemma Parse_decoded (pc : RawExtension) (cfg : config) :
  Raw pc <> [] ->
  json_Unmarshal (Raw pc) config_zero = (cfg, None) ->
  Parse (Some pc) =
  match cfg_ImmutableSettings cfg with
  | None => (None, None)
  | Some js =>
    match time_ParseDuration (json_RetentionPeriod js) with
    | (_, Some e) => (None, Some ("invalid retentionPeriod format: " ++ e))
    | (duration, None) =>
      (Some {| RetentionType := json_RetentionType js;
               RetentionPeriod := duration |}, None)
    end
  end.
Proof.
  intros Hne Hu. unfold ParseImmutableSettings.
  rewrite (length_eqb_nonempty _ _ Hne), Hu.
  destruct (cfg_ImmutableSettings cfg) as [js|]; [|reflexivity].
  destruct (time_ParseDuration (json_RetentionPeriod js)) as [d [e|]]; reflexivity.
Qed.

Lemma Parse_no_field (pc : RawExtension) (cfg : config) :
  json_Unmarshal (Raw pc) config_zero = (cfg, None) ->
  cfg_ImmutableSettings cfg = None ->
  Parse (Some pc) = (None, None).
Proof.
  intros Hu Hnone. destruct (Raw pc) eqn:E.
  - now apply Parse_empty.
  - rewrite (Parse_decoded pc cfg); [now rewrite Hnone | congruence | congruence].
Qed.

(** The parser returns settings, or an error, or neither; never both. *)
Lemma Parse_not_both (providerConfig : option RawExtension)
  (s : ImmutableSettings) (e : string) :
  Parse providerConfig <> (Some s, Some e).
Proof.
  unfold ParseImmutableSettings.
  destruct providerConfig as [pc|]; [|discriminate].
  destruct (List.length (Raw pc) =? 0)%nat; [discriminate|].
  destruct (json_Unmarshal (Raw pc) config_zero) as [cfg [e'|]]; [discriminate|].
  destruct (cfg_ImmutableSettings cfg) as [js|]; [|discriminate].
  destruct (time_ParseDuration (json_RetentionPeriod js)) as [d [e'|]]; discriminate.
Qed.

(** *** [validateCreate] and [validateUpdate] *)

(** Once both payloads have parsed, [validateUpdate] is its rule list. *)
Lemma validateUpdate_parsed (oldSeed newSeed : Seed) (ob nb : SeedBackup)
  (o n : option ImmutableSettings) :
  Backup (Spec oldSeed) = Some ob ->
  Backup (Spec newSeed) = Some nb ->
  Parse (ProviderConfig ob) = (o, None) ->
  Parse (ProviderConfig nb) = (n, None) ->
  Update oldSeed newSeed =
  Done (match n, o with
        | None, Some _ => errors_New "disabling immutable settings is not allowed"
        | _, _ => None
        end ;;;
        match n, o with
        | Some n', Some o' =>
          (if RetentionPeriod n' <? RetentionPeriod o'
           then errors_New "reducing the retention period is not allowed"
           else None) ;;;
          (if negb (RetentionType n' =? RetentionType o')%string
           then errors_New "modifying the retention type is not allowed"
           else None)
        | _, _ => None
        end ;;;
        match o, n with
        | None, Some n' => validateImmutableSettings n'
        | _, _ => None
        end ;;;
        None).
Proof.
  intros Hob Hnb Ho Hn. unfold validateUpdate, deref.
  rewrite Hob, Ho, Hnb, Hn. reflexivity.
Qed.

Lemma validateCreate_parsed (newSeed : Seed) (nb : SeedBackup)
  (n : option ImmutableSettings) :
  Backup (Spec newSeed) = Some nb ->
  Parse (ProviderConfig nb) = (n, None) ->
  Create newSeed =
  Done (match n with Some n' => validateImmutableSettings n' | None => None end).
Proof.
  intros Hnb Hn. unfold validateCreate, deref.
  rewrite Hnb, Hn. now rewrite orElse_None_r.
Qed.

(** Both sides present: the outcome by cases on the two comparisons. *)
Lemma validateUpdate_both_present (oldSeed newSeed : Seed) (ob nb : SeedBackup)
  (o n : ImmutableSettings) :
  Backup (Spec oldSeed) = Some ob ->
  Backup (Spec newSeed) = Some nb ->
  Parse (ProviderConfig ob) = (Some o, None) ->
  Parse (ProviderConfig nb) = (Some n, None) ->
  Update oldSeed newSeed =
  Done (if RetentionPeriod n <? RetentionPeriod o
        then Some "reducing the retention period is not allowed"
        else if (RetentionType n =? RetentionType o)%string
             then None
             else Some "modifying the retention type is not allowed").
Proof.
  intros Hob Hnb Ho Hn.
  rewrite (validateUpdate_parsed _ _ _ _ _ _ Hob Hnb Ho Hn).
  destruct (RetentionPeriod n <? RetentionPeriod o); [reflexivity|].
  destruct (RetentionType n =? RetentionType o)%string; reflexivity.
Qed.

(** C1. Once enabled, never disabled: when the old payload parses to
    settings (of any shape) and the new one parses to none, the update is
    rejected with "disabling immutable settings is not allowed"; the new
    payload parses to none when it is absent, when it has no bytes and when
    it decodes without an [immutableSettings] value. *)
Theorem disabling_rejected (oldSeed newSeed : Seed) (ob nb : SeedBackup)
  (o : ImmutableSettings) :
  Backup (Spec oldSeed) = Some ob ->
  Backup (Spec newSeed) = Some nb ->
  Parse (ProviderConfig ob) = (Some o, None) ->
  (Parse (ProviderConfig nb) = (None, None) ->
   Update oldSeed newSeed = Done (Some "disabling immutable settings is not allowed"))
  /\ (ProviderConfig nb = None ->
      Update oldSeed newSeed = Done (Some "disabling immutable settings is not allowed"))
  /\ (forall pc : RawExtension,
        ProviderConfig nb = Some pc ->
        Raw pc = [] ->
        Update oldSeed newSeed = Done (Some "disabling immutable settings is not allowed"))
  /\ (forall (pc : RawExtension) (cfg : config),
        ProviderConfig nb = Some pc ->
        json_Unmarshal (Raw pc) config_zero = (cfg, None) ->
        cfg_ImmutableSettings cfg = None ->
        Update oldSeed newSeed = Done (Some "disabling immutable settings is not allowed")).
Proof.
  intros Hob Hnb Ho.
  assert (G : Parse (ProviderConfig nb) = (None, None) ->
              Update oldSeed newSeed
              = Done (Some "disabling immutable settings is not allowed")).
  { intros Hn. now rewrite (validateUpdate_parsed _ _ _ _ _ _ Hob Hnb Ho Hn). }
  split; [exact G|]. split; [|split].
  - intros Hpc. apply G. rewrite Hpc. apply Parse_nil.
  - intros pc Hpc Hraw. apply G. rewrite Hpc. now apply Parse_empty.
  - intros pc cfg Hpc Hu Hnone. apply G. rewrite Hpc. now apply (Parse_no_field pc cfg).
Qed.

(** C2. Monotonicity: with both sides present and the retention type
    unchanged, a new period below the old one is rejected with "reducing
    the retention period is not allowed", a new period at or above it is
    accepted, and acceptance is preserved when the new period grows. *)
Theorem period_monotone (oldSeed newSeed : Seed) (ob nb : SeedBackup)
  (o n : ImmutableSettings) :
  Backup (Spec oldSeed) = Some ob ->
  Backup (Spec newSeed) = Some nb ->
  Parse (ProviderConfig ob) = (Some o, None) ->
  Parse (ProviderConfig nb) = (Some n, None) ->
  RetentionType n = RetentionType o ->
  (RetentionPeriod n < RetentionPeriod o ->
   Update oldSeed newSeed =
   Done (Some "reducing the retention period is not allowed"))
  /\ (RetentionPeriod o <= RetentionPeriod n -> Update oldSeed newSeed = Done None)
  /\ (forall (newSeed' : Seed) (nb' : SeedBackup) (n' : ImmutableSettings),
        Backup (Spec newSeed') = Some nb' ->
        Parse (ProviderConfig nb') = (Some n', None) ->
        RetentionType n' = RetentionType o ->
        RetentionPeriod n <= RetentionPeriod n' ->
        Update oldSeed newSeed = Done None ->
        Update oldSeed newSeed' = Done None).
Proof.
  intros Hob Hnb Ho Hn Hty.
  rewrite (validateUpdate_both_present _ _ _ _ _ _ Hob Hnb Ho Hn).
  rewrite Hty, String.eqb_refl.
  repeat split.
  - intros Hlt. apply Z.ltb_lt in Hlt. now rewrite Hlt.
  - intros Hle. apply Z.ltb_ge in Hle. now rewrite Hle.
  - intros newSeed' nb' n' Hnb' Hn' Hty' Hle.
    rewrite (validateUpdate_both_present _ _ _ _ _ _ Hob Hnb' Ho Hn').
    rewrite Hty', String.eqb_refl.
    destruct (RetentionPeriod n <? RetentionPeriod o) eqn:E; [discriminate|].
    intros _. apply Z.ltb_ge in E.
    assert (H : (RetentionPeriod n' <? RetentionPeriod o) = false)
      by (apply Z.ltb_ge; lia).
    now rewrite H.
Qed.

(** C3. Precedence: with both sides present, a reduced period together
    with a changed type is reported as "reducing the retention period is
    not allowed"; "modifying the retention type is not allowed" is the
    result exactly when the period is not reduced and the type differs. *)
Theorem period_check_precedes_type_check (oldSeed newSeed : Seed)
  (ob nb : SeedBackup) (o n : ImmutableSettings) :
  Backup (Spec oldSeed) = Some ob ->
  Backup (Spec newSeed) = Some nb ->
  Parse (ProviderConfig ob) = (Some o, None) ->
  Parse (ProviderConfig nb) = (Some n, None) ->
  (RetentionPeriod n < RetentionPeriod o ->
   RetentionType n <> RetentionType o ->
   Update oldSeed newSeed =
   Done (Some "reducing the retention period is not allowed"))
  /\ ((Update oldSeed newSeed =
       Done (Some "modifying the retention type is not allowed"))
      <-> (RetentionPeriod o <= RetentionPeriod n
           /\ RetentionType n <> RetentionType o)).
Proof.
  intros Hob Hnb Ho Hn.
  rewrite (validateUpdate_both_present _ _ _ _ _ _ Hob Hnb Ho Hn).
  split.
  - intros Hlt _. apply Z.ltb_lt in Hlt. now rewrite Hlt.
  - destruct (RetentionPeriod n <? RetentionPeriod o) eqn:Ep.
    + apply Z.ltb_lt in Ep. split; [discriminate | lia].
    + apply Z.ltb_ge in Ep.
      destruct (RetentionType n =? RetentionType o)%string eqn:Et.
      * apply String.eqb_eq in Et. split; [discriminate | tauto].
      * apply String.eqb_neq in Et. split; auto.
Qed.

(** C4. Idempotence: when old and new parse to the same settings the
    update is accepted, whatever their shape; more generally, with both
    sides present, the period not reduced and the type unchanged, the
    update is accepted and [validateImmutableSettings] plays no part. *)
Theorem unchanged_settings_accepted (oldSeed newSeed : Seed)
  (ob nb : SeedBackup) (o n : ImmutableSettings) :
  Backup (Spec oldSeed) = Some ob ->
  Backup (Spec newSeed) = Some nb ->
  Parse (ProviderConfig ob) = (Some o, None) ->
  Parse (ProviderConfig nb) = (Some n, None) ->
  (n = o -> Update oldSeed newSeed = Done None)
  /\ (RetentionPeriod o <= RetentionPeriod n ->
      RetentionType n = RetentionType o ->
      Update oldSeed newSeed = Done None).
Proof.
  intros Hob Hnb Ho Hn.
  rewrite (validateUpdate_both_present _ _ _ _ _ _ Hob Hnb Ho Hn).
  assert (G : RetentionPeriod o <= RetentionPeriod n ->
              RetentionType n = RetentionType o ->
              Done (if RetentionPeriod n <? RetentionPeriod o
                    then Some "reducing the retention period is not allowed"
                    else if (RetentionType n =? RetentionType o)%string
                         then None
                         else Some "modifying the retention type is not allowed")
              = Done None).
  { intros Hle Hty. apply Z.ltb_ge in Hle. now rewrite Hle, Hty, String.eqb_refl. }
  split; [|exact G].
  intros ->. apply G; [lia | reflexivity].
Qed.

(** C6. A decoded payload whose [immutableSettings] is present: when the
    [retentionPeriod] string parses, the result carries the
    [retentionType] string as it is and the parsed duration, whatever
    they are; when it does not parse, the result is the error "invalid
    retentionPeriod format: " followed by the complaint of the duration
    parser. *)
Theorem parse_present_settings (pc : RawExtension) (cfg : config)
  (js : ImmutableSettingsJSON) :
  Raw pc <> [] ->
  json_Unmarshal (Raw pc) config_zero = (cfg, None) ->
  cfg_ImmutableSettings cfg = Some js ->
  (forall d : Duration,
      time_ParseDuration (json_RetentionPeriod js) = (d, None) ->
      Parse (Some pc) =
      (Some {| RetentionType := json_RetentionType js; RetentionPeriod := d |},
       None))
  /\ (forall (d : Duration) (e : string),
        time_ParseDuration (json_RetentionPeriod js) = (d, Some e) ->
        Parse (Some pc) = (None, Some ("invalid retentionPeriod format: " ++ e))
        /\ Contains "invalid retentionPeriod format"
                    ("invalid retentionPeriod format: " ++ e)
        /\ Contains e ("invalid retentionPeriod format: " ++ e)).
Proof.
  intros Hne Hu Hjs.
  rewrite (Parse_decoded pc cfg Hne Hu), Hjs.
  split.
  - intros d Hd. now rewrite Hd.
  - intros d e Hd. rewrite Hd. split; [reflexivity|]. split.
    + exists EmptyString, (": " ++ e). reflexivity.
    + apply Contains_suffix.
Qed.

(** C7. Shape validation looks at the type first: a [retentionType]
    other than "bucket" gives the error naming the value and "must be
    'bucket'", whatever the period; with type "bucket" a period of zero
    or less gives "retentionPeriod must be greater than zero"; otherwise
    there is no error.  It is the verdict of a creation whose payload
    parses to settings, and of an update that introduces settings. *)
Theorem shape_validation (s : ImmutableSettings) :
  (RetentionType s <> "bucket" ->
   validateImmutableSettings s =
   Some ("invalid retentionType '" ++ RetentionType s ++ "'; must be 'bucket'")
   /\ Contains (RetentionType s)
               ("invalid retentionType '" ++ RetentionType s ++ "'; must be 'bucket'")
   /\ Contains "must be 'bucket'"
               ("invalid retentionType '" ++ RetentionType s ++ "'; must be 'bucket'"))
  /\ (RetentionType s = "bucket" ->
      RetentionPeriod s <= 0 ->
      validateImmutableSettings s = Some "retentionPeriod must be greater than zero")
  /\ (RetentionType s = "bucket" ->
      0 < RetentionPeriod s ->
      validateImmutableSettings s = None)
  /\ (forall (newSeed : Seed) (nb : SeedBackup),
        Backup (Spec newSeed) = Some nb ->
        Parse (ProviderConfig nb) = (Some s, None) ->
        Create newSeed = Done (validateImmutableSettings s))
  /\ (forall (oldSeed newSeed : Seed) (ob nb : SeedBackup),
        Backup (Spec oldSeed) = Some ob ->
        Backup (Spec newSeed) = Some nb ->
        Parse (ProviderConfig ob) = (None, None) ->
        Parse (ProviderConfig nb) = (Some s, None) ->
        Update oldSeed newSeed = Done (validateImmutableSettings s)).
Proof.
  split; [|split; [|split; [|split]]].
  - intros Hty. unfold validateImmutableSettings.
    apply String.eqb_neq in Hty. rewrite Hty. cbn [negb].
    split; [reflexivity|]. split.
    + apply Contains_middle.
    + apply Contains_app_l, Contains_app_l.
      exists "'; ", EmptyString. reflexivity.
  - intros Hty Hle. unfold validateImmutableSettings.
    rewrite Hty. simpl. apply Z.leb_le in Hle. now rewrite Hle.
  - intros Hty Hlt. unfold validateImmutableSettings.
    rewrite Hty. simpl. apply Z.leb_gt in Hlt. now rewrite Hlt.
  - intros newSeed nb Hnb Hn.
    now rewrite (validateCreate_parsed _ _ _ Hnb Hn).
  - intros oldSeed newSeed ob nb Hob Hnb Ho Hn.
    rewrite (validateUpdate_parsed _ _ _ _ _ _ Hob Hnb Ho Hn).
    simpl. now rewrite orElse_None_r.
Qed.

End Policy.

(** ** The parser of the storage client, for any decoder and duration parser *)
Section Storage.

Variable json_Unmarshal : list byte -> client.config -> client.config * error.
Variable time_ParseDuration : string -> Duration * error.

Local Notation "'ParseC'" :=
  (client.ParseImmutableSettings json_Unmarshal time_ParseDuration).

Import client.

Lemma client_Parse_nil :
  ParseC None = (None, Some "providerConfig is either empty or nil").
Proof. reflexivity. Qed.

Lemma client_Parse_empty (pc : RawExtension) :
  Raw pc = [] ->
  ParseC (Some pc) = (None, Some "providerConfig is either empty or nil").
Proof.
  intros H. unfold ParseImmutableSettings. now rewrite H.
Qed.

Lemma client_Parse_decoded (pc : RawExtension) (cfg : config) :
  Raw pc <> [] ->
  json_Unmarshal (Raw pc) config_zero = (cfg, None) ->
  ParseC (Some pc) =
  if (json_RetentionType (cfg_ImmutableSettings cfg) =? "bucket")%string then
    match time_ParseDuration (json_RetentionPeriod (cfg_ImmutableSettings cfg)) with
    | (_, Some e) => (None, Some ("invalid retentionPeriod format: " ++ e))
    | (duration, None) =>
      (Some {| RetentionType := json_RetentionType (cfg_ImmutableSettings cfg);
               RetentionPeriod := duration |}, None)
    end
  else
    (None, Some ("invalid retentionType '"
                 ++ json_RetentionType (cfg_ImmutableSettings cfg)
                 ++ "'; must be 'bucket'")).
Proof.
  intros Hne Hu. unfold ParseImmutableSettings.
  destruct (Raw pc) as [|b l] eqn:E; [congruence|].
  cbn [List.length Nat.eqb]. rewrite Hu.
  destruct (json_RetentionType (cfg_ImmutableSettings cfg) =? "bucket")%string;
    cbn [negb]; [|reflexivity].
  destruct (time_ParseDuration _) as [d [e|]]; reflexivity.
Qed.

(** Every return is an error or a settings value. *)
Lemma client_Parse_never_none (providerConfig : option RawExtension) :
  ParseC providerConfig <> (None, None).
Proof.
  unfold ParseImmutableSettings.
  destruct providerConfig as [pc|]; [|discriminate].
  destruct (List.length (Raw pc) =? 0)%nat; [discriminate|].
  destruct (json_Unmarshal (Raw pc) config_zero) as [cfg [e|]]; [discriminate|].
  destruct (negb _); [discriminate|].
  destruct (time_ParseDuration _) as [d [e|]]; discriminate.
Qed.

End Storage.

(** ** The reference duration parser *)

Lemma leadingInt_length (s : string) :
  forall (x v : Z) (r : string),
    GoTime.leadingInt s x = Some (v, r) -> (String.length r <= String.length s)%nat.
Proof.
  induction s as [|c s IH]; intros x v r H; cbn [GoTime.leadingInt] in H.
  - injection H as _ <-. simpl. lia.
  - destruct (negb (GoTime.isDigit c)).
    + injection H as _ <-. simpl. lia.
    + destruct (x >? 2 ^ 63 / 10); [discriminate|].
      destruct (GoTime.u64 (x * 10 + GoTime.digit c) >? 2 ^ 63); [discriminate|].
      apply IH in H. simpl. lia.
Qed.

Lemma leadingFraction_length (s : string) :
  forall (x scale : Z) (overflow : bool) (f scale' : Z) (r : string),
    GoTime.leadingFraction s x scale overflow = (f, scale', r) ->
    (String.length r <= String.length s)%nat.
Proof.
  induction s as [|c s IH]; intros x scale overflow f scale' r H;
    cbn [GoTime.leadingFraction] in H.
  - injection H as _ _ <-. simpl. lia.
  - destruct (negb (GoTime.isDigit c)).
    + injection H as _ _ <-. simpl. lia.
    + destruct overflow; [apply IH in H; simpl; lia|].
      destruct (x >? (2 ^ 63 - 1) / 10); [apply IH in H; simpl; lia|].
      destruct (GoTime.u64 (x * 10 + GoTime.digit c) >? 2 ^ 63);
        apply IH in H; simpl; lia.
Qed.

Lemma fraction_length (s : string) (f scale : Z) (r : string) (post : bool) :
  GoTime.fraction s = (f, scale, r, post) ->
  (String.length r <= String.length s)%nat.
Proof.
  unfold GoTime.fraction. destruct s as [|c s].
  - intros H. injection H as _ _ <- _. simpl. lia.
  - destruct (c =? ".")%char.
    + destruct (GoTime.leadingFraction s 0 1 false) as [[f0 sc0] r0] eqn:E.
      intros H. injection H as _ _ <- _.
      apply leadingFraction_length in E. simpl. lia.
    + intros H. injection H as _ _ <- _. simpl. lia.
Qed.

Lemma splitUnit_length (s : string) :
  forall u r : string,
    GoTime.splitUnit s = (u, r) ->
    String.length s = (String.length u + String.length r)%nat.
Proof.
  induction s as [|c s IH]; intros u r H; cbn [GoTime.splitUnit] in H.
  - injection H as <- <-. reflexivity.
  - destruct ((c =? ".")%char || GoTime.isDigit c).
    + injection H as <- <-. reflexivity.
    + destruct (GoTime.splitUnit s) as [u0 r0].
      injection H as <- <-. simpl. now rewrite (IH u0 r0 eq_refl).
Qed.

(** The loop of [ParseDuration] ends: every turn consumes a unit, so as
    many turns as the text has bytes are enough. *)
Lemma parseLoop_terminates (fuel : nat) :
  forall (orig s : string) (neg : bool) (d : Z),
    (String.length s <= fuel)%nat ->
    GoTime.parseLoop fuel orig s neg d <> None.
Proof.
  induction fuel as [|fuel IH]; intros orig s neg d Hlen.
  - destruct s; [discriminate | simpl in Hlen; lia].
  - destruct s as [|c s']; [discriminate|].
    unfold GoTime.parseLoop; fold GoTime.parseLoop.
    destruct (negb _); [discriminate|].
    destruct (GoTime.leadingInt (String c s') 0) as [[v s1]|] eqn:E1; [|discriminate].
    destruct (GoTime.fraction s1) as [[[f scale] s2] post] eqn:E2.
    destruct (negb _ && negb post); [discriminate|].
    destruct (GoTime.splitUnit s2) as [u s3] eqn:E3.
    destruct (String.length u =? 0)%nat eqn:Eu; [discriminate|].
    destruct (GoTime.unitMap u) as [unit|]; [|discriminate].
    destruct (v >? 2 ^ 63 / unit); [discriminate|].
    destruct ((f >? 0) && _); [discriminate|].
    destruct (_ >? 2 ^ 63); [discriminate|].
    apply IH.
    apply leadingInt_length in E1. apply fraction_length in E2.
    apply splitUnit_length in E3. apply Nat.eqb_neq in Eu.
    lia.
Qed.

(** So the fuel [ParseDuration] hands to the loop always yields a result. *)
Lemma ParseDuration_fuel_suffices (orig s : string) (neg : bool) (d : Z) :
  exists r, GoTime.parseLoop (String.length s) orig s neg d = Some r.
Proof.
  destruct (GoTime.parseLoop (String.length s) orig s neg d) as [r|] eqn:E.
  - now exists r.
  - exfalso. now apply (parseLoop_terminates (String.length s) orig s neg d).
Qed.

(** ** The reference JSON decoder *)

(** Members none of which names a field leave the struct as it is. *)
Lemma decodeMembers_unmatched (T : Type) (fields : list (GoJSON.field T))
  (members : list (string * GoJSON.value)) :
  (forall k v, In (k, v) members -> GoJSON.findField fields k = None) ->
  forall (t : T) (saved : error),
    GoJSON.decodeMembers fields members t saved = (t, saved).
Proof.
  induction members as [|[k v] members IH]; intros Hno t saved; [reflexivity|].
  simpl. rewrite (Hno k v (or_introl eq_refl)).
  apply IH. intros k' v' Hin. apply (Hno k' v'). now right.
Qed.

Lemma findField_unmatched (T : Type) (f : GoJSON.field T) (k : string) :
  GoJSON.foldName k <> GoJSON.foldName (GoJSON.name f) ->
  GoJSON.findField [f] k = None.
Proof.
  intros Hk. unfold GoJSON.findField. cbn [find].
  destruct (GoJSON.name f =? k)%string eqn:E1.
  - apply String.eqb_eq in E1. now rewrite E1 in Hk.
  - destruct (GoJSON.foldName (GoJSON.name f) =? GoJSON.foldName k)%string eqn:E2;
      [|reflexivity].
    apply String.eqb_eq in E2. now rewrite E2 in Hk.
Qed.

(** A JSON object with no member for [immutableSettings] decodes to the
    zero [config] of the validator. *)
Lemma Unmarshal_object_without_member (text : string)
  (members : list (string * GoJSON.value)) :
  GoJSON.parse text = Some (GoJSON.Obj members) ->
  (forall k v, In (k, v) members ->
               GoJSON.foldName k <> GoJSON.foldName "immutableSettings") ->
  GoJSON.Unmarshal (list_byte_of_string text) validator.config_zero
  = (validator.config_zero, None).
Proof.
  intros Hparse Hno. unfold GoJSON.Unmarshal.
  rewrite string_of_list_byte_of_string, Hparse.
  cbn [GoJSON.decode GoJSON.validator_config GoJSON.decodeStruct].
  apply decodeMembers_unmatched.
  intros k v Hin. apply findField_unmatched. cbn [GoJSON.name].
  exact (Hno k v Hin).
Qed.

(** ** Claims about the parsers *)



(** C8. The parser of the storage client fails on an absent payload and
    on a payload of zero bytes with "providerConfig is either empty or
    nil", and no input makes it return neither settings nor error; the
    admission-side parser returns exactly that on the same two inputs. *)
Theorem storage_parse_requires_payload
  (json_Unmarshal : list byte -> client.config -> client.config * error)
  (time_ParseDuration : string -> Duration * error) :
  client.ParseImmutableSettings json_Unmarshal time_ParseDuration None
  = (None, Some "providerConfig is either empty or nil")
  /\ (forall pc : RawExtension,
        Raw pc = [] ->
        client.ParseImmutableSettings json_Unmarshal time_ParseDuration (Some pc)
        = (None, Some "providerConfig is either empty or nil"))
  /\ (forall providerConfig : option RawExtension,
        client.ParseImmutableSettings json_Unmarshal time_ParseDuration providerConfig
        <> (None, None))
  /\ (forall (json_Unmarshal' : list byte -> validator.config -> validator.config * error),
        validator.ParseImmutableSettings json_Unmarshal' time_ParseDuration None
        = (None, None)
        /\ forall pc : RawExtension,
            Raw pc = [] ->
            validator.ParseImmutableSettings json_Unmarshal' time_ParseDuration (Some pc)
            = (None, None)).
Proof.
  split; [apply client_Parse_nil|]. split; [apply client_Parse_empty|].
  split; [apply client_Parse_never_none|].
  intros U'. split; [apply Parse_nil | apply Parse_empty].
Qed.

(** C9. A decoded payload whose [immutableSettings] is present with an
    absent or empty [retentionPeriod] fails in the parser with "invalid
    retentionPeriod format: ...", because the empty string is no duration;
    validation then stops at the parse error, so neither creation nor
    update reports an "invalid retentionType" error for it, whatever the
    type.  With the reference library this is the fate of
    [{"immutableSettings":{}}] and [{"immutableSettings":{"retentionType":"foo"}}],
    while [{"immutableSettings":null}] gives none without error, like a
    payload without the field. *)
Theorem missing_period_fails_before_type_check :
  (forall (json_Unmarshal : list byte -> validator.config -> validator.config * error)
          (time_ParseDuration : string -> Duration * error)
          (pc : RawExtension) (cfg : validator.config)
          (js : validator.ImmutableSettingsJSON) (d : Duration) (e : string),
      Raw pc <> [] ->
      json_Unmarshal (Raw pc) validator.config_zero = (cfg, None) ->
      validator.cfg_ImmutableSettings cfg = Some js ->
      validator.json_RetentionPeriod js = EmptyString ->
      time_ParseDuration EmptyString = (d, Some e) ->
      validator.ParseImmutableSettings json_Unmarshal time_ParseDuration (Some pc)
      = (None, Some ("invalid retentionPeriod format: " ++ e))
      /\ (forall (newSeed : Seed) (nb : SeedBackup),
            Backup (Spec newSeed) = Some nb ->
            ProviderConfig nb = Some pc ->
            validator.validateCreate json_Unmarshal time_ParseDuration newSeed
            = Done (Some ("error parsing immutable settings: "
                          ++ "invalid retentionPeriod format: " ++ e))
            /\ (forall t : string,
                  validator.validateCreate json_Unmarshal time_ParseDuration newSeed
                  <> Done (Some ("invalid retentionType '" ++ t ++ "'; must be 'bucket'")))
            /\ (forall (oldSeed : Seed) (t : string),
                  validator.validateUpdate json_Unmarshal time_ParseDuration
                    oldSeed newSeed
                  <> Done (Some ("invalid retentionType '" ++ t ++ "'; must be 'bucket'")))))
  /\ GoTime.ParseDuration EmptyString = (0, Some ("time: invalid duration " ++ dq ++ dq))
  /\ linked.ParseImmutableSettings fixtures.settings_empty_object
     = (None, Some ("invalid retentionPeriod format: time: invalid duration " ++ dq ++ dq))
  /\ linked.ParseImmutableSettings fixtures.settings_type_only
     = (None, Some ("invalid retentionPeriod format: time: invalid duration " ++ dq ++ dq))
  /\ linked.validateCreate (fixtures.seed fixtures.settings_type_only)
     = Done (Some ("error parsing immutable settings: "
                   ++ "invalid retentionPeriod format: time: invalid duration "
                   ++ dq ++ dq))
  /\ linked.ParseImmutableSettings fixtures.settings_null = (None, None)
  /\ linked.ParseImmutableSettings fixtures.other_field = (None, None).
Proof.
  split; [|repeat split; vm_compute; reflexivity].
  intros U PD pc cfg js d e Hne Hu Hjs Hrp Hpd.
  assert (P : validator.ParseImmutableSettings U PD (Some pc)
              = (None, Some ("invalid retentionPeriod format: " ++ e))).
  { rewrite (Parse_decoded U PD pc cfg Hne Hu), Hjs, Hrp, Hpd. reflexivity. }
  split; [exact P|].
  intros newSeed nb Hnb Hpc.
  assert (C : validator.validateCreate U PD newSeed
              = Done (Some ("error parsing immutable settings: "
                            ++ "invalid retentionPeriod format: " ++ e))).
  { unfold validator.validateCreate, deref. rewrite Hnb, Hpc, P. reflexivity. }
  split; [exact C|]. split.
  - intros t. rewrite C. cbn. discriminate.
  - intros oldSeed t. unfold validator.validateUpdate, deref.
    destruct (Backup (Spec oldSeed)) as [ob|]; [|discriminate].
    destruct (validator.ParseImmutableSettings U PD (ProviderConfig ob)) as [o [e'|]].
    + cbn. discriminate.
    + rewrite Hnb, Hpc, P. cbn. discriminate.
Qed.

(** C10. The parser of the storage client checks the type and nothing
    else: a decoded [retentionType] other than "bucket" gives "invalid
    retentionType '...'; must be 'bucket'", and with type "bucket" every
    duration the [retentionPeriod] string parses to is returned, the
    negative ones and zero included, as for "-96h" and "0s". *)
Theorem storage_parse_checks_type_only :
  (forall (json_Unmarshal : list byte -> client.config -> client.config * error)
          (time_ParseDuration : string -> Duration * error)
          (pc : RawExtension) (cfg : client.config),
      Raw pc <> [] ->
      json_Unmarshal (Raw pc) client.config_zero = (cfg, None) ->
      (client.json_RetentionType (client.cfg_ImmutableSettings cfg) <> "bucket" ->
       client.ParseImmutableSettings json_Unmarshal time_ParseDuration (Some pc)
       = (None, Some ("invalid retentionType '"
                      ++ client.json_RetentionType (client.cfg_ImmutableSettings cfg)
                      ++ "'; must be 'bucket'")))
      /\ (client.json_RetentionType (client.cfg_ImmutableSettings cfg) = "bucket" ->
          forall d : Duration,
            time_ParseDuration
              (client.json_RetentionPeriod (client.cfg_ImmutableSettings cfg))
            = (d, None) ->
            client.ParseImmutableSettings json_Unmarshal time_ParseDuration (Some pc)
            = (Some {| client.RetentionType := "bucket";
                       client.RetentionPeriod := d |}, None)))
  /\ GoTime.ParseDuration "-96h" = (-345600000000000, None)
  /\ GoTime.ParseDuration "0s" = (0, None)
  /\ linked.client_ParseImmutableSettings (fixtures.settings "bucket" "-96h")
     = (Some {| client.RetentionType := "bucket";
                client.RetentionPeriod := -345600000000000 |}, None)
  /\ linked.client_ParseImmutableSettings (fixtures.settings "bucket" "0s")
     = (Some {| client.RetentionType := "bucket";
                client.RetentionPeriod := 0 |}, None).
Proof.
  split; [|repeat split; vm_compute; reflexivity].
  intros U PD pc cfg Hne Hu.
  rewrite (client_Parse_decoded U PD pc cfg Hne Hu). split.
  - intros Hty. apply String.eqb_neq in Hty. now rewrite Hty.
  - intros Hty d Hd. now rewrite Hty, Hd.
Qed.

(** ** The claims at concrete seeds, on the reference library *)

Lemma disabling_rejected_witness :
  linked.validateUpdate (fixtures.seed (fixtures.settings "foo" "-5h"))
                        (fixtures.seed None)
  = Done (Some "disabling immutable settings is not allowed")
  /\ linked.validateUpdate (fixtures.seed (fixtures.settings "foo" "-5h"))
                           (fixtures.seed fixtures.other_field)
     = Done (Some "disabling immutable settings is not allowed").
Proof.
  assert (P : linked.ParseImmutableSettings (fixtures.settings "foo" "-5h")
              = (Some {| validator.RetentionType := "foo";
                         validator.RetentionPeriod := -18000000000000 |}, None)).
  { vm_compute. reflexivity. }
  split.
  - destruct (disabling_rejected GoJSON.Unmarshal GoTime.ParseDuration
                (fixtures.seed (fixtures.settings "foo" "-5h")) (fixtures.seed None)
                {| ProviderConfig := fixtures.settings "foo" "-5h" |}
                {| ProviderConfig := None |} _ eq_refl eq_refl P) as (_ & Hnil & _).
    exact (Hnil eq_refl).
  - destruct (disabling_rejected GoJSON.Unmarshal GoTime.ParseDuration
                (fixtures.seed (fixtures.settings "foo" "-5h"))
                (fixtures.seed fixtures.other_field)
                {| ProviderConfig := fixtures.settings "foo" "-5h" |}
                {| ProviderConfig := fixtures.other_field |} _ eq_refl eq_refl P)
      as (Hnone & _).
    apply Hnone. vm_compute. reflexivity.
Defined.

Lemma period_monotone_witness :
  linked.validateUpdate (fixtures.seed (fixtures.settings "bucket" "96h"))
                        (fixtures.seed (fixtures.settings "bucket" "48h"))
  = Done (Some "reducing the retention period is not allowed")
  /\ linked.validateUpdate (fixtures.seed (fixtures.settings "bucket" "96h"))
                           (fixtures.seed (fixtures.settings "bucket" "120h"))
     = Done None.
Proof.
  split.
  - apply (period_monotone GoJSON.Unmarshal GoTime.ParseDuration _ _
             {| ProviderConfig := fixtures.settings "bucket" "96h" |}
             {| ProviderConfig := fixtures.settings "bucket" "48h" |}
             {| validator.RetentionType := "bucket";
                validator.RetentionPeriod := 345600000000000 |}
             {| validator.RetentionType := "bucket";
                validator.RetentionPeriod := 172800000000000 |});
      vm_compute; reflexivity.
  - apply (period_monotone GoJSON.Unmarshal GoTime.ParseDuration _ _
             {| ProviderConfig := fixtures.settings "bucket" "96h" |}
             {| ProviderConfig := fixtures.settings "bucket" "120h" |}
             {| validator.RetentionType := "bucket";
                validator.RetentionPeriod := 345600000000000 |}
             {| validator.RetentionType := "bucket";
                validator.RetentionPeriod := 432000000000000 |});
      try (vm_compute; reflexivity).
    cbn. lia.
Defined.

Lemma period_check_precedes_type_check_witness :
  linked.validateUpdate (fixtures.seed (fixtures.settings "bucket" "96h"))
                        (fixtures.seed (fixtures.settings "bar" "48h"))
  = Done (Some "reducing the retention period is not allowed").
Proof.
  apply (period_check_precedes_type_check GoJSON.Unmarshal GoTime.ParseDuration _ _
           {| ProviderConfig := fixtures.settings "bucket" "96h" |}
           {| ProviderConfig := fixtures.settings "bar" "48h" |}
           {| validator.RetentionType := "bucket";
              validator.RetentionPeriod := 345600000000000 |}
           {| validator.RetentionType := "bar";
              validator.RetentionPeriod := 172800000000000 |});
    try (vm_compute; reflexivity).
  cbn. discriminate.
Defined.

Lemma unchanged_settings_accepted_witness :
  validator.validateImmutableSettings
    {| validator.RetentionType := "foo"; validator.RetentionPeriod := -18000000000000 |}
  = Some "invalid retentionType 'foo'; must be 'bucket'"
  /\ linked.validateUpdate (fixtures.seed (fixtures.settings "foo" "-5h"))
                           (fixtures.seed (fixtures.settings "foo" "-5h"))
     = Done None.
Proof.
  split; [reflexivity|].
  assert (P : linked.ParseImmutableSettings (fixtures.settings "foo" "-5h")
              = (Some {| validator.RetentionType := "foo";
                         validator.RetentionPeriod := -18000000000000 |}, None)).
  { vm_compute. reflexivity. }
  destruct (unchanged_settings_accepted GoJSON.Unmarshal GoTime.ParseDuration
              (fixtures.seed (fixtures.settings "foo" "-5h"))
              (fixtures.seed (fixtures.settings "foo" "-5h"))
              {| ProviderConfig := fixtures.settings "foo" "-5h" |}
              {| ProviderConfig := fixtures.settings "foo" "-5h" |}
              _ _ eq_refl eq_refl P P) as [Hsame _].
  exact (Hsame eq_refl).
Defined.


Lemma parse_present_settings_witness :
  linked.ParseImmutableSettings (fixtures.settings "weird" "-96h")
  = (Some {| validator.RetentionType := "weird";
             validator.RetentionPeriod := -345600000000000 |}, None)
  /\ linked.ParseImmutableSettings (fixtures.settings "bucket" "invalid")
     = (None, Some ("invalid retentionPeriod format: time: invalid duration "
                    ++ dq ++ "invalid" ++ dq)).
Proof.
  split.
  - apply (proj1 (parse_present_settings GoJSON.Unmarshal GoTime.ParseDuration
             {| Raw := list_byte_of_string
                         ("{" ++ fixtures.q "immutableSettings" ++ ":{"
                          ++ fixtures.q "retentionType" ++ ":" ++ fixtures.q "weird"
                          ++ "," ++ fixtures.q "retentionPeriod" ++ ":"
                          ++ fixtures.q "-96h" ++ "}}") |}
             {| validator.cfg_ImmutableSettings :=
                  Some {| validator.json_RetentionType := "weird";
                          validator.json_RetentionPeriod := "-96h" |} |}
             {| validator.json_RetentionType := "weird";
                validator.json_RetentionPeriod := "-96h" |}
             ltac:(vm_compute; discriminate)
             ltac:(vm_compute; reflexivity)
             eq_refl) (-345600000000000)).
    vm_compute. reflexivity.
  - apply (proj2 (parse_present_settings GoJSON.Unmarshal GoTime.ParseDuration
             {| Raw := list_byte_of_string
                         ("{" ++ fixtures.q "immutableSettings" ++ ":{"
                          ++ fixtures.q "retentionType" ++ ":" ++ fixtures.q "bucket"
                          ++ "," ++ fixtures.q "retentionPeriod" ++ ":"
                          ++ fixtures.q "invalid" ++ "}}") |}
             {| validator.cfg_ImmutableSettings :=
                  Some {| validator.json_RetentionType := "bucket";
                          validator.json_RetentionPeriod := "invalid" |} |}
             {| validator.json_RetentionType := "bucket";
                validator.json_RetentionPeriod := "invalid" |}
             ltac:(vm_compute; discriminate)
             ltac:(vm_compute; reflexivity)
             eq_refl) 0 ("time: invalid duration " ++ dq ++ "invalid" ++ dq)).
    vm_compute. reflexivity.
Defined.

Lemma shape_validation_witness :
  linked.validateCreate (fixtures.seed (fixtures.settings "invalid" "-96h"))
  = Done (Some "invalid retentionType 'invalid'; must be 'bucket'")
  /\ linked.validateUpdate (fixtures.seed None)
                           (fixtures.seed (fixtures.settings "bucket" "0s"))
     = Done (Some "retentionPeriod must be greater than zero")
  /\ linked.validateCreate (fixtures.seed (fixtures.settings "bucket" "96h"))
     = Done None.
Proof.
  split; [|split].
  - assert (P : linked.ParseImmutableSettings (fixtures.settings "invalid" "-96h")
                = (Some {| validator.RetentionType := "invalid";
                           validator.RetentionPeriod := -345600000000000 |}, None)).
    { vm_compute. reflexivity. }
    destruct (shape_validation GoJSON.Unmarshal GoTime.ParseDuration
                {| validator.RetentionType := "invalid";
                   validator.RetentionPeriod := -345600000000000 |})
      as (Hty & _ & _ & Hc & _).
    unfold linked.validateCreate.
    rewrite (Hc (fixtures.seed (fixtures.settings "invalid" "-96h"))
               {| ProviderConfig := fixtures.settings "invalid" "-96h" |} eq_refl P).
    assert (N : "invalid" <> "bucket") by discriminate.
    rewrite (proj1 (Hty N)). reflexivity.
  - assert (P : linked.ParseImmutableSettings (fixtures.settings "bucket" "0s")
                = (Some {| validator.RetentionType := "bucket";
                           validator.RetentionPeriod := 0 |}, None)).
    { vm_compute. reflexivity. }
    destruct (shape_validation GoJSON.Unmarshal GoTime.ParseDuration
                {| validator.RetentionType := "bucket";
                   validator.RetentionPeriod := 0 |})
      as (_ & Hle & _ & _ & Hu).
    unfold linked.validateUpdate.
    rewrite (Hu (fixtures.seed None) (fixtures.seed (fixtures.settings "bucket" "0s"))
               {| ProviderConfig := None |}
               {| ProviderConfig := fixtures.settings "bucket" "0s" |}
               eq_refl eq_refl eq_refl P).
    assert (Z0 : 0 <= 0) by lia.
    rewrite (Hle eq_refl Z0). reflexivity.
  - assert (P : linked.ParseImmutableSettings (fixtures.settings "bucket" "96h")
                = (Some {| validator.RetentionType := "bucket";
                           validator.RetentionPeriod := 345600000000000 |}, None)).
    { vm_compute. reflexivity. }
    destruct (shape_validation GoJSON.Unmarshal GoTime.ParseDuration
                {| validator.RetentionType := "bucket";
                   validator.RetentionPeriod := 345600000000000 |})
      as (_ & _ & Hok & Hc & _).
    unfold linked.validateCreate.
    rewrite (Hc (fixtures.seed (fixtures.settings "bucket" "96h"))
               {| ProviderConfig := fixtures.settings "bucket" "96h" |} eq_refl P).
    assert (Zp : 0 < 345600000000000) by lia.
    rewrite (Hok eq_refl Zp). reflexivity.
Defined.

Lemma storage_parse_requires_payload_witness :
  linked.client_ParseImmutableSettings fixtures.empty_payload
  = (None, Some "providerConfig is either empty or nil")
  /\ linked.ParseImmutableSettings fixtures.empty_payload = (None, None).
Proof.
  destruct (storage_parse_requires_payload GoJSON.Unmarshal GoTime.ParseDuration)
    as (_ & He & _ & Hv).
  split.
  - apply He. reflexivity.
  - apply (proj2 (Hv GoJSON.Unmarshal)). reflexivity.
Defined.

Lemma missing_period_fails_before_type_check_witness :
  linked.ParseImmutableSettings fixtures.settings_type_only
  = (None, Some ("invalid retentionPeriod format: time: invalid duration " ++ dq ++ dq)).
Proof.
  apply (proj1 missing_period_fails_before_type_check
           GoJSON.Unmarshal GoTime.ParseDuration
           {| Raw := list_byte_of_string
                       ("{" ++ fixtures.q "immutableSettings" ++ ":{"
                        ++ fixtures.q "retentionType" ++ ":" ++ fixtures.q "foo" ++ "}}") |}
           {| validator.cfg_ImmutableSettings :=
                Some {| validator.json_RetentionType := "foo";
                        validator.json_RetentionPeriod := EmptyString |} |}
           {| validator.json_RetentionType := "foo";
              validator.json_RetentionPeriod := EmptyString |}
           0 ("time: invalid duration " ++ dq ++ dq)
           ltac:(vm_compute; discriminate)
           ltac:(vm_compute; reflexivity)
           eq_refl eq_refl
           ltac:(vm_compute; reflexivity)).
Defined.

Lemma storage_parse_checks_type_only_witness :
  linked.client_ParseImmutableSettings (fixtures.settings "bucket" "-96h")
  = (Some {| client.RetentionType := "bucket";
             client.RetentionPeriod := -345600000000000 |}, None)
  /\ linked.client_ParseImmutableSettings (fixtures.settings "other" "96h")
     = (None, Some "invalid retentionType 'other'; must be 'bucket'").
Proof.
  split.
  - apply (proj2 (proj1 storage_parse_checks_type_only
             GoJSON.Unmarshal GoTime.ParseDuration
             {| Raw := list_byte_of_string
                         ("{" ++ fixtures.q "immutableSettings" ++ ":{"
                          ++ fixtures.q "retentionType" ++ ":" ++ fixtures.q "bucket"
                          ++ "," ++ fixtures.q "retentionPeriod" ++ ":"
                          ++ fixtures.q "-96h" ++ "}}") |}
             {| client.cfg_ImmutableSettings :=
                  {| client.json_RetentionType := "bucket";
                     client.json_RetentionPeriod := "-96h" |} |}
             ltac:(vm_compute; discriminate)
             ltac:(vm_compute; reflexivity)) eq_refl (-345600000000000)).
    vm_compute. reflexivity.
  - apply (proj1 (proj1 storage_parse_checks_type_only
             GoJSON.Unmarshal GoTime.ParseDuration
             {| Raw := list_byte_of_string
                         ("{" ++ fixtures.q "immutableSettings" ++ ":{"
                          ++ fixtures.q "retentionType" ++ ":" ++ fixtures.q "other"
                          ++ "," ++ fixtures.q "retentionPeriod" ++ ":"
                          ++ fixtures.q "96h" ++ "}}") |}
             {| client.cfg_ImmutableSettings :=
                  {| client.json_RetentionType := "other";
                     client.json_RetentionPeriod := "96h" |} |}
             ltac:(vm_compute; discriminate)
             ltac:(vm_compute; reflexivity))).
    cbn. discriminate.
Defined.


(** ** Malformed payloads and seeds without backup *)

(** A payload the decoder refuses is reported with the decoder's complaint. *)
Lemma Parse_decode_error
  (json_Unmarshal : list byte -> validator.config -> validator.config * error)
  (time_ParseDuration : string -> Duration * error)
  (pc : RawExtension) (cfg : validator.config) (e : string) :
  Raw pc <> [] ->
  json_Unmarshal (Raw pc) validator.config_zero = (cfg, Some e) ->
  validator.ParseImmutableSettings json_Unmarshal time_ParseDuration (Some pc)
  = (None, Some ("error while parsing immutable settings: " ++ e)).
Proof.
  intros Hne Hu. unfold validator.ParseImmutableSettings.
  now rewrite (length_eqb_nonempty _ _ Hne), Hu.
Qed.

(** The reference decoder refuses a truncated document and, because the
    target is a struct, a document that is an array. *)
Example malformed_payloads :
  fst (linked.ParseImmutableSettings (fixtures.raw "{")) = None
  /\ snd (linked.ParseImmutableSettings (fixtures.raw "{")) <> None
  /\ fst (linked.ParseImmutableSettings (fixtures.raw "[1]")) = None
  /\ snd (linked.ParseImmutableSettings (fixtures.raw "[1]")) <> None.
Proof.
  repeat split; vm_compute; discriminate.
Qed.

(** [Spec.Backup] is a pointer and the validator does not test it. *)
Lemma validateCreate_without_backup
  (json_Unmarshal : list byte -> validator.config -> validator.config * error)
  (time_ParseDuration : string -> Duration * error) (newSeed : Seed) :
  Backup (Spec newSeed) = None ->
  validator.validateCreate json_Unmarshal time_ParseDuration newSeed = Panic.
Proof.
  intros H. unfold validator.validateCreate. now rewrite H.
Qed.

(** [Validate] is [validateCreate] without an old object and
    [validateUpdate] with one. *)
Lemma Validate_dispatch
  (json_Unmarshal : list byte -> validator.config -> validator.config * error)
  (time_ParseDuration : string -> Duration * error) (oldSeed newSeed : Seed) :
  validator.Validate json_Unmarshal time_ParseDuration (SeedObject newSeed) None
  = validator.validateCreate json_Unmarshal time_ParseDuration newSeed
  /\ validator.Validate json_Unmarshal time_ParseDuration
       (SeedObject newSeed) (Some (SeedObject oldSeed))
     = validator.validateUpdate json_Unmarshal time_ParseDuration oldSeed newSeed.
Proof.
  split; reflexivity.
Qed.

(** ** The test table of the validator, run on the reference library *)

Example update_unchanged :
  linked.Validate
    (SeedObject (fixtures.seed (fixtures.settings "bucket" "96h")))
    (Some (SeedObject (fixtures.seed (fixtures.settings "bucket" "96h"))))
  = Done None.
Proof. vm_compute. reflexivity. Qed.

Example update_period_reduced :
  linked.Validate
    (SeedObject (fixtures.seed (fixtures.settings "bucket" "48h")))
    (Some (SeedObject (fixtures.seed (fixtures.settings "bucket" "96h"))))
  = Done (Some "reducing the retention period is not allowed").
Proof. vm_compute. reflexivity. Qed.

Example update_type_changed :
  linked.Validate
    (SeedObject (fixtures.seed (fixtures.settings "bar" "96h")))
    (Some (SeedObject (fixtures.seed (fixtures.settings "bucket" "96h"))))
  = Done (Some "modifying the retention type is not allowed").
Proof. vm_compute. reflexivity. Qed.

Example update_disabled :
  linked.Validate
    (SeedObject (fixtures.seed None))
    (Some (SeedObject (fixtures.seed (fixtures.settings "bucket" "96h"))))
  = Done (Some "disabling immutable settings is not allowed").
Proof. vm_compute. reflexivity. Qed.

Example create_valid :
  linked.Validate (SeedObject (fixtures.seed (fixtures.settings "bucket" "96h"))) None
  = Done None.
Proof. vm_compute. reflexivity. Qed.

Example create_invalid_type :
  linked.Validate (SeedObject (fixtures.seed (fixtures.settings "invalid" "96h"))) None
  = Done (Some "invalid retentionType 'invalid'; must be 'bucket'").
Proof. vm_compute. reflexivity. Qed.

Example create_invalid_period_format :
  linked.Validate (SeedObject (fixtures.seed (fixtures.settings "bucket" "invalid"))) None
  = Done (Some ("error parsing immutable settings: invalid retentionPeriod format: "
                ++ "time: invalid duration " ++ dq ++ "invalid" ++ dq)).
Proof. vm_compute. reflexivity. Qed.

Example create_negative_period :
  linked.Validate (SeedObject (fixtures.seed (fixtures.settings "bucket" "-96h"))) None
  = Done (Some "retentionPeriod must be greater than zero").
Proof. vm_compute. reflexivity. Qed.

Example create_without_settings :
  linked.Validate (SeedObject (fixtures.seed None)) None = Done None.
Proof. vm_compute. reflexivity. Qed.


(** * What the validator decides *)

Section Decisions.

Variable json_Unmarshal : list byte -> validator.config -> validator.config * error.
Variable time_ParseDuration : string -> Duration * error.

Local Notation "'Parse'" :=
  (validator.ParseImmutableSettings json_Unmarshal time_ParseDuration).
Local Notation "'Create'" :=
  (validator.validateCreate json_Unmarshal time_ParseDuration).
Local Notation "'Update'" :=
  (validator.validateUpdate json_Unmarshal time_ParseDuration).
Local Notation "'Accepted'" :=
  (fun a b : Seed =>
     validator.validateUpdate json_Unmarshal time_ParseDuration a b = Done None).

Import validator policy.

Lemma validateImmutableSettings_None (s : ImmutableSettings) :
  validateImmutableSettings s = None <-> shape_valid s.
Proof.
  unfold validateImmutableSettings, shape_valid.
  destruct (RetentionType s =? "bucket")%string eqn:Et; cbn [negb].
  - apply String.eqb_eq in Et.
    destruct (RetentionPeriod s <=? 0) eqn:Ep.
    + apply Z.leb_le in Ep. split; [discriminate | lia].
    + apply Z.leb_gt in Ep. split; auto.
  - apply String.eqb_neq in Et. split; [discriminate | tauto].
Qed.

Lemma validateCreate_accept_inv (newSeed : Seed) :
  Create newSeed = Done None ->
  exists nb n,
    Backup (Spec newSeed) = Some nb
    /\ Parse (ProviderConfig nb) = (n, None)
    /\ creation_allowed n.
Proof.
  unfold validateCreate, deref.
  destruct (Backup (Spec newSeed)) as [nb|]; [|discriminate].
  destruct (Parse (ProviderConfig nb)) as [n [e|]] eqn:P; [discriminate|].
  rewrite orElse_None_r. intros H. exists nb, n.
  split; [reflexivity|]. split; [exact P|].
  destruct n as [s|]; [|exact I].
  apply validateImmutableSettings_None. congruence.
Qed.

Lemma validateCreate_accept_intro (newSeed : Seed) (nb : SeedBackup)
  (n : option ImmutableSettings) :
  Backup (Spec newSeed) = Some nb ->
  Parse (ProviderConfig nb) = (n, None) ->
  creation_allowed n ->
  Create newSeed = Done None.
Proof.
  intros Hnb Hn Hok. rewrite (validateCreate_parsed _ _ _ _ _ Hnb Hn).
  destruct n as [s|]; [|reflexivity].
  now rewrite (proj2 (validateImmutableSettings_None s) Hok).
Qed.

(** The rule list of [validateUpdate] accepts exactly the allowed
    transitions. *)
Lemma validateUpdate_rules (o n : option ImmutableSettings) :
  (match n, o with
   | None, Some _ => errors_New "disabling immutable settings is not allowed"
   | _, _ => None
   end ;;;
   match n, o with
   | Some n', Some o' =>
     (if RetentionPeriod n' <? RetentionPeriod o'
      then errors_New "reducing the retention period is not allowed"
      else None) ;;;
     (if negb (RetentionType n' =? RetentionType o')%string
      then errors_New "modifying the retention type is not allowed"
      else None)
   | _, _ => None
   end ;;;
   match o, n with
   | None, Some n' => validateImmutableSettings n'
   | _, _ => None
   end ;;;
   None) = None
  <-> transition_allowed o n.
Proof.
  destruct o as [o'|], n as [n'|]; cbn [orElse errors_New transition_allowed].
  - destruct (RetentionPeriod n' <? RetentionPeriod o') eqn:Ep; cbn [orElse].
    + apply Z.ltb_lt in Ep. split; [discriminate | lia].
    + apply Z.ltb_ge in Ep.
      destruct (RetentionType n' =? RetentionType o')%string eqn:Et; cbn [negb orElse].
      * apply String.eqb_eq in Et. split; auto.
      * apply String.eqb_neq in Et. split; [discriminate | tauto].
  - split; [discriminate | tauto].
  - rewrite orElse_None_r. apply validateImmutableSettings_None.
  - split; auto.
Qed.

Lemma validateUpdate_accept_inv (oldSeed newSeed : Seed) :
  Update oldSeed newSeed = Done None ->
  exists ob nb o n,
    Backup (Spec oldSeed) = Some ob
    /\ Backup (Spec newSeed) = Some nb
    /\ Parse (ProviderConfig ob) = (o, None)
    /\ Parse (ProviderConfig nb) = (n, None)
    /\ transition_allowed o n.
Proof.
  intros H.
  destruct (Backup (Spec oldSeed)) as [ob|] eqn:Hob;
    [|unfold validateUpdate, deref in H; rewrite Hob in H; discriminate].
  destruct (Parse (ProviderConfig ob)) as [o [e|]] eqn:Ho;
    [unfold validateUpdate, deref in H; rewrite Hob, Ho in H; discriminate|].
  destruct (Backup (Spec newSeed)) as [nb|] eqn:Hnb;
    [|unfold validateUpdate, deref in H; rewrite Hob, Ho, Hnb in H; discriminate].
  destruct (Parse (ProviderConfig nb)) as [n [e|]] eqn:Hn;
    [unfold validateUpdate, deref in H; rewrite Hob, Ho, Hnb, Hn in H; discriminate|].
  rewrite (validateUpdate_parsed _ _ _ _ _ _ _ _ Hob Hnb Ho Hn) in H.
  exists ob, nb, o, n.
  repeat (split; [first [reflexivity | assumption]|]).
  apply validateUpdate_rules. congruence.
Qed.

Lemma validateUpdate_accept_intro (oldSeed newSeed : Seed) (ob nb : SeedBackup)
  (o n : option ImmutableSettings) :
  Backup (Spec oldSeed) = Some ob ->
  Backup (Spec newSeed) = Some nb ->
  Parse (ProviderConfig ob) = (o, None) ->
  Parse (ProviderConfig nb) = (n, None) ->
  transition_allowed o n ->
  Update oldSeed newSeed = Done None.
Proof.
  intros Hob Hnb Ho Hn Hok.
  rewrite (validateUpdate_parsed _ _ _ _ _ _ _ _ Hob Hnb Ho Hn).
  f_equal. now apply validateUpdate_rules.
Qed.

Lemma transition_allowed_trans (a b c : option ImmutableSettings) :
  transition_allowed a b -> transition_allowed b c -> transition_allowed a c.
Proof.
  unfold transition_allowed, shape_valid.
  destruct a as [a'|], b as [b'|], c as [c'|]; try tauto.
  - intros [H1 H2] [H3 H4]. split; [lia | congruence].
  - intros [H1 H2] [H3 H4]. split; [congruence | lia].
Qed.

Lemma transition_keeps_shape (a b : option ImmutableSettings) :
  creation_allowed a -> transition_allowed a b -> creation_allowed b.
Proof.
  unfold creation_allowed, transition_allowed, shape_valid.
  destruct a as [a'|], b as [b'|]; try tauto.
  intros [H1 H2] [H3 H4]. split; [congruence | lia].
Qed.

Lemma accepted_trans (a b c : Seed) :
  Update a b = Done None -> Update b c = Done None -> Update a c = Done None.
Proof.
  intros Hab Hbc.
  destruct (validateUpdate_accept_inv _ _ Hab) as (ab & bb & sa & sb & Ha & Hb & Pa & Pb & Tab).
  destruct (validateUpdate_accept_inv _ _ Hbc) as (bb' & cb & sb' & sc & Hb' & Hc & Pb' & Pc & Tbc).
  assert (E : bb' = bb) by congruence. subst bb'.
  assert (E : sb' = sb) by congruence. subst sb'.
  apply (validateUpdate_accept_intro a c ab cb sa sc Ha Hc Pa Pc).
  exact (transition_allowed_trans _ _ _ Tab Tbc).
Qed.

Lemma accepted_keeps_creatable (a b : Seed) :
  Create a = Done None -> Update a b = Done None -> Create b = Done None.
Proof.
  intros Ha Hab.
  destruct (validateCreate_accept_inv _ Ha) as (ab & sa & Hba & Pa & Ca).
  destruct (validateUpdate_accept_inv _ _ Hab) as (ab' & bb & sa' & sb & Hba' & Hbb & Pa' & Pb & T).
  assert (E : ab' = ab) by congruence. subst ab'.
  assert (E : sa' = sa) by congruence. subst sa'.
  apply (validateCreate_accept_intro b bb sb Hbb Pb).
  exact (transition_keeps_shape _ _ Ca T).
Qed.

(** X1. Creation is accepted exactly when the payload of the seed parses
    without error to no settings or to settings of valid shape (type
    "bucket", period above zero). *)
Theorem create_accepted_iff (newSeed : Seed) (nb : SeedBackup) :
  Backup (Spec newSeed) = Some nb ->
  (Create newSeed = Done None
   <-> exists n, Parse (ProviderConfig nb) = (n, None) /\ creation_allowed n).
Proof.
  intros Hnb. split.
  - intros H. destruct (validateCreate_accept_inv _ H) as (nb' & n & Hnb' & P & C).
    assert (E : nb' = nb) by congruence. subst nb'. now exists n.
  - intros (n & P & C). exact (validateCreate_accept_intro _ _ _ Hnb P C).
Qed.

(** X2. An update is accepted exactly when both seeds have a backup, both
    payloads parse without error, and the settings go from none to none,
    from none to settings of valid shape, or from settings to settings of
    the same type with a period that is not lower. *)
Theorem update_accepted_iff (oldSeed newSeed : Seed) :
  Update oldSeed newSeed = Done None
  <-> exists ob nb o n,
        Backup (Spec oldSeed) = Some ob
        /\ Backup (Spec newSeed) = Some nb
        /\ Parse (ProviderConfig ob) = (o, None)
        /\ Parse (ProviderConfig nb) = (n, None)
        /\ transition_allowed o n.
Proof.
  split.
  - apply validateUpdate_accept_inv.
  - intros (ob & nb & o & n & Hob & Hnb & Ho & Hn & T).
    exact (validateUpdate_accept_intro _ _ _ _ _ _ Hob Hnb Ho Hn T).
Qed.

(** X3. A parse error is reported with the side it comes from: an error
    in the old payload gives "error parsing old immutable settings: ..."
    whatever the new seed is, an error in the new payload is reported as
    "error parsing new immutable settings: ..." only when the old payload
    parsed, and creation reports "error parsing immutable settings: ...". *)
Theorem parse_errors_are_qualified (oldSeed newSeed : Seed) :
  (forall (ob : SeedBackup) (o : option ImmutableSettings) (e : string),
      Backup (Spec oldSeed) = Some ob ->
      Parse (ProviderConfig ob) = (o, Some e) ->
      Update oldSeed newSeed
      = Done (Some ("error parsing old immutable settings: " ++ e)))
  /\ (forall (ob nb : SeedBackup) (o n : option ImmutableSettings) (e : string),
        Backup (Spec oldSeed) = Some ob ->
        Parse (ProviderConfig ob) = (o, None) ->
        Backup (Spec newSeed) = Some nb ->
        Parse (ProviderConfig nb) = (n, Some e) ->
        Update oldSeed newSeed
        = Done (Some ("error parsing new immutable settings: " ++ e)))
  /\ (forall (nb : SeedBackup) (n : option ImmutableSettings) (e : string),
        Backup (Spec newSeed) = Some nb ->
        Parse (ProviderConfig nb) = (n, Some e) ->
        Create newSeed = Done (Some ("error parsing immutable settings: " ++ e))).
Proof.
  split; [|split].
  - intros ob o e Hob Ho. unfold validateUpdate, deref. now rewrite Hob, Ho.
  - intros ob nb o n e Hob Ho Hnb Hn. unfold validateUpdate, deref.
    now rewrite Hob, Ho, Hnb, Hn.
  - intros nb n e Hnb Hn. unfold validateCreate, deref. now rewrite Hnb, Hn.
Qed.

(** X4. Accepted updates compose: when the update from [a] to [b] and the
    update from [b] to [c] are accepted, so is the update from [a] to [c];
    hence in a list of seeds whose successive updates are all accepted, the
    update from any seed to any later one is accepted. *)
Theorem accepted_updates_compose :
  (forall a b c : Seed,
      Update a b = Done None -> Update b c = Done None -> Update a c = Done None)
  /\ (forall history : list Seed,
        Sorted (fun a b => Update a b = Done None) history ->
        StronglySorted (fun a b => Update a b = Done None) history).
Proof.
  split; [exact accepted_trans|].
  intros history. apply Sorted_StronglySorted.
  intros a b c. apply accepted_trans.
Qed.

(** X5. Validity is kept along a history: when the first seed of a list
    passes creation and every successive update is accepted, every seed of
    the list passes creation, so its settings are absent or of valid shape. *)
Theorem accepted_history_stays_valid (first : Seed) (later : list Seed) :
  Create first = Done None ->
  Sorted (fun a b => Update a b = Done None) (first :: later) ->
  Forall (fun s => Create s = Done None) (first :: later).
Proof.
  revert first. induction later as [|b later IH]; intros first Hc Hs.
  - constructor; [exact Hc | constructor].
  - constructor; [exact Hc|].
    apply Sorted_inv in Hs. destruct Hs as [Hs Hd].
    apply HdRel_inv in Hd.
    apply IH; [|exact Hs].
    exact (accepted_keeps_creatable _ _ Hc Hd).
Qed.

(** X6. The validator dereferences [Spec.Backup] without a nil test:
    creation panics exactly when the new seed has no backup; an update
    panics exactly when the old seed has no backup, or the old payload
    parsed and the new seed has no backup. *)
Theorem validator_panics_iff (oldSeed newSeed : Seed) :
  (Create newSeed = Panic <-> Backup (Spec newSeed) = None)
  /\ (Update oldSeed newSeed = Panic
      <-> Backup (Spec oldSeed) = None
          \/ exists ob o,
               Backup (Spec oldSeed) = Some ob
               /\ Parse (ProviderConfig ob) = (o, None)
               /\ Backup (Spec newSeed) = None).
Proof.
  split.
  - unfold validateCreate, deref.
    destruct (Backup (Spec newSeed)) as [nb|]; [|tauto].
    destruct (Parse (ProviderConfig nb)) as [n [e|]]; split; discriminate.
  - unfold validateUpdate, deref.
    destruct (Backup (Spec oldSeed)) as [ob|]; [|tauto].
    destruct (Parse (ProviderConfig ob)) as [o [e|]] eqn:Ho.
    + split; [discriminate|].
      intros [H|(ob' & o' & Hob & Ho' & _)]; [discriminate|].
      injection Hob as <-. congruence.
    + destruct (Backup (Spec newSeed)) as [nb|].
      * destruct (Parse (ProviderConfig nb)) as [n [e|]].
        -- split; [discriminate|].
           intros [H|(ob' & o' & _ & _ & H)]; discriminate.
        -- split; [discriminate|].
           intros [H|(ob' & o' & _ & _ & H)]; discriminate.
      * split; [|reflexivity]. intros _. right. now exists ob, o.
Qed.

(** X7. [Validate] tests the types before it reads a seed: a new object
    that is no Seed is refused whatever the old object is, an old object
    that is no Seed is refused whatever the new seed holds, and a creation
    never ends in one of the three rejections of an update. *)
Theorem Validate_type_checks :
  (forall (t : string) (oldObj : option Object),
      Validate json_Unmarshal time_ParseDuration (OtherObject t) oldObj
      = Done (Some ("wrong object type " ++ t ++ " for new object")))
  /\ (forall (newSeed : Seed) (t : string),
        Validate json_Unmarshal time_ParseDuration
          (SeedObject newSeed) (Some (OtherObject t))
        = Done (Some ("wrong object type " ++ t ++ " for old object")))
  /\ (forall newSeed : Seed,
        Validate json_Unmarshal time_ParseDuration (SeedObject newSeed) None
        <> Done (Some "disabling immutable settings is not allowed")
        /\ Validate json_Unmarshal time_ParseDuration (SeedObject newSeed) None
           <> Done (Some "reducing the retention period is not allowed")
        /\ Validate json_Unmarshal time_ParseDuration (SeedObject newSeed) None
           <> Done (Some "modifying the retention type is not allowed")).
Proof.
  split; [reflexivity|]. split; [reflexivity|].
  intros newSeed. cbn [Validate]. unfold validateCreate, deref.
  destruct (Backup (Spec newSeed)) as [nb|]; [|repeat split; discriminate].
  destruct (Parse (ProviderConfig nb)) as [n [e|]].
  - repeat split; cbn; discriminate.
  - rewrite orElse_None_r. destruct n as [s|]; [|repeat split; discriminate].
    unfold validateImmutableSettings.
    destruct (negb (RetentionType s =? "bucket")%string).
    + repeat split; cbn; discriminate.
    + destruct (RetentionPeriod s <=? 0); repeat split; cbn; discriminate.
Qed.

(** X8. The admission-side parser returns neither settings nor error
    exactly when the payload is absent, has no bytes, or decodes without
    error and without an [immutableSettings] value. *)
Theorem parse_none_iff (providerConfig : option RawExtension) :
  Parse providerConfig = (None, None)
  <-> providerConfig = None
      \/ exists pc,
           providerConfig = Some pc
           /\ (Raw pc = []
               \/ exists cfg,
                    json_Unmarshal (Raw pc) config_zero = (cfg, None)
                    /\ cfg_ImmutableSettings cfg = None).
Proof.
  split.
  - destruct providerConfig as [pc|]; [|now left].
    intros H. right. exists pc. split; [reflexivity|].
    destruct (Raw pc) as [|b l] eqn:E; [now left|]. right.
    assert (Hne : Raw pc <> []) by congruence.
    destruct (json_Unmarshal (Raw pc) config_zero) as [cfg [e|]] eqn:Hu.
    + rewrite (Parse_decode_error _ _ pc cfg e Hne Hu) in H. discriminate.
    + rewrite <- E. exists cfg. split; [exact Hu|].
      rewrite (Parse_decoded _ _ pc cfg Hne Hu) in H.
      destruct (cfg_ImmutableSettings cfg) as [js|]; [|reflexivity].
      destruct (time_ParseDuration (json_RetentionPeriod js)) as [d [e|]];
        discriminate.
  - intros [->|(pc & -> & [Hraw|(cfg & Hu & Hnone)])].
    + apply Parse_nil.
    + now apply Parse_empty.
    + now apply (Parse_no_field _ _ pc cfg).
Qed.

(** X9. Settings come from the payload only: when the admission-side
    parser returns settings there is no error, the payload has bytes and
    decoded without error with [immutableSettings] present, the type is
    the decoded [retentionType] and the period is what the decoded
    [retentionPeriod] parses to. *)
Theorem parse_settings_inv (providerConfig : option RawExtension)
  (s : ImmutableSettings) (err : error) :
  Parse providerConfig = (Some s, err) ->
  err = None
  /\ exists pc cfg js,
       providerConfig = Some pc
       /\ Raw pc <> []
       /\ json_Unmarshal (Raw pc) config_zero = (cfg, None)
       /\ cfg_ImmutableSettings cfg = Some js
       /\ RetentionType s = json_RetentionType js
       /\ time_ParseDuration (json_RetentionPeriod js) = (RetentionPeriod s, None).
Proof.
  destruct providerConfig as [pc|]; [|discriminate].
  destruct (Raw pc) as [|b l] eqn:E.
  - rewrite (Parse_empty _ _ pc E). discriminate.
  - assert (Hne : Raw pc <> []) by congruence. clear E.
    destruct (json_Unmarshal (Raw pc) config_zero) as [cfg [e|]] eqn:Hu.
    + rewrite (Parse_decode_error _ _ pc cfg e Hne Hu). discriminate.
    + rewrite (Parse_decoded _ _ pc cfg Hne Hu).
      destruct (cfg_ImmutableSettings cfg) as [js|] eqn:Hjs; [|discriminate].
      destruct (time_ParseDuration (json_RetentionPeriod js)) as [d [e|]] eqn:Hd;
        [discriminate|].
      intros H. injection H as <- <-. split; [reflexivity|].
      exists pc, cfg, js. repeat (split; [first [reflexivity | assumption]|]).
      exact Hd.
Qed.

(** X10. An error of the admission-side parser comes without settings and
    is one of two: "error while parsing immutable settings: " followed by
    the complaint of the decoder, or, after a successful decode with
    [immutableSettings] present, "invalid retentionPeriod format: "
    followed by the complaint of the duration parser. *)
Theorem parse_error_inv (providerConfig : option RawExtension)
  (r : option ImmutableSettings) (e : string) :
  Parse providerConfig = (r, Some e) ->
  r = None
  /\ exists pc cfg,
       providerConfig = Some pc
       /\ Raw pc <> []
       /\ ((exists e',
              json_Unmarshal (Raw pc) config_zero = (cfg, Some e')
              /\ e = "error while parsing immutable settings: " ++ e')
           \/ (exists js d e',
                 json_Unmarshal (Raw pc) config_zero = (cfg, None)
                 /\ cfg_ImmutableSettings cfg = Some js
                 /\ time_ParseDuration (json_RetentionPeriod js) = (d, Some e')
                 /\ e = "invalid retentionPeriod format: " ++ e')).
Proof.
  destruct providerConfig as [pc|]; [|discriminate].
  destruct (Raw pc) as [|b l] eqn:E.
  - rewrite (Parse_empty _ _ pc E). discriminate.
  - assert (Hne : Raw pc <> []) by congruence. clear E.
    destruct (json_Unmarshal (Raw pc) config_zero) as [cfg [e0|]] eqn:Hu.
    + rewrite (Parse_decode_error _ _ pc cfg e0 Hne Hu).
      intros H. injection H as <- <-. split; [reflexivity|].
      exists pc, cfg. split; [reflexivity|]. split; [exact Hne|].
      left. now exists e0.
    + rewrite (Parse_decoded _ _ pc cfg Hne Hu).
      destruct (cfg_ImmutableSettings cfg) as [js|] eqn:Hjs; [|discriminate].
      destruct (time_ParseDuration (json_RetentionPeriod js)) as [d [e0|]] eqn:Hd;
        [|discriminate].
      intros H. injection H as <- <-. split; [reflexivity|].
      exists pc, cfg. split; [reflexivity|]. split; [exact Hne|].
      right. exists js, d, e0. now repeat split.
Qed.

End Decisions.

(** * The storage client *)

Section StorageDecisions.

Variable json_Unmarshal : list byte -> client.config -> client.config * error.
Variable time_ParseDuration : string -> Duration * error.

Local Notation "'ParseC'" :=
  (client.ParseImmutableSettings json_Unmarshal time_ParseDuration).

(** X11. The parser of the storage client returns settings or an error,
    never both and never neither; settings it returns have type "bucket"
    and come from a payload with bytes that decoded without error, their
    period being what the decoded [retentionPeriod] parses to. *)
Theorem storage_parse_result :
  (forall providerConfig : option RawExtension,
      fst (ParseC providerConfig) = None <-> snd (ParseC providerConfig) <> None)
  /\ (forall (providerConfig : option RawExtension) (s : client.ImmutableSettings)
             (err : error),
        ParseC providerConfig = (Some s, err) ->
        err = None
        /\ client.RetentionType s = "bucket"
        /\ exists pc cfg,
             providerConfig = Some pc
             /\ Raw pc <> []
             /\ json_Unmarshal (Raw pc) client.config_zero = (cfg, None)
             /\ client.json_RetentionType (client.cfg_ImmutableSettings cfg) = "bucket"
             /\ time_ParseDuration
                  (client.json_RetentionPeriod (client.cfg_ImmutableSettings cfg))
                = (client.RetentionPeriod s, None)).
Proof.
  split.
  - intros providerConfig. unfold client.ParseImmutableSettings.
    destruct providerConfig as [pc|]; [|split; [discriminate | reflexivity]].
    destruct (List.length (Raw pc) =? 0)%nat; [split; [discriminate | reflexivity]|].
    destruct (json_Unmarshal (Raw pc) client.config_zero) as [cfg [e|]];
      [split; [discriminate | reflexivity]|].
    destruct (negb _); [split; [discriminate | reflexivity]|].
    destruct (time_ParseDuration _) as [d [e|]]; cbn [fst snd].
    + split; [discriminate | reflexivity].
    + split; [discriminate | congruence].
  - intros providerConfig s err.
    destruct providerConfig as [pc|]; [|discriminate].
    destruct (Raw pc) as [|b l] eqn:E.
    + rewrite (client_Parse_empty _ _ pc E). discriminate.
    + assert (Hne : Raw pc <> []) by congruence. clear E.
      destruct (json_Unmarshal (Raw pc) client.config_zero) as [cfg [e|]] eqn:Hu.
      * unfold client.ParseImmutableSettings.
        rewrite (length_eqb_nonempty _ _ Hne), Hu. discriminate.
      * rewrite (client_Parse_decoded _ _ pc cfg Hne Hu).
        destruct (client.json_RetentionType (client.cfg_ImmutableSettings cfg)
                  =? "bucket")%string eqn:Et; [|discriminate].
        apply String.eqb_eq in Et.
        destruct (time_ParseDuration _) as [d [e|]] eqn:Hd; [discriminate|].
        intros H. injection H as <- <-. cbn [client.RetentionType client.RetentionPeriod].
        split; [reflexivity|]. split; [exact Et|].
        exists pc, cfg. repeat (split; [first [reflexivity | assumption]|]).
        exact Hd.
Qed.

End StorageDecisions.

(** X12. What admission accepts can be provisioned: when creation is
    accepted for a seed whose payload decodes with [immutableSettings]
    present, and the decoding of the storage client reads the same two
    strings from that payload, both parsers return the type "bucket" with
    the same period, and the period is above zero. *)
Theorem accepted_settings_are_provisionable
  (json_Unmarshal_v : list byte -> validator.config -> validator.config * error)
  (json_Unmarshal_c : list byte -> client.config -> client.config * error)
  (time_ParseDuration : string -> Duration * error)
  (newSeed : Seed) (nb : SeedBackup) (pc : RawExtension)
  (cfg_v : validator.config) (js : validator.ImmutableSettingsJSON)
  (cfg_c : client.config) :
  Backup (Spec newSeed) = Some nb ->
  ProviderConfig nb = Some pc ->
  Raw pc <> [] ->
  json_Unmarshal_v (Raw pc) validator.config_zero = (cfg_v, None) ->
  validator.cfg_ImmutableSettings cfg_v = Some js ->
  json_Unmarshal_c (Raw pc) client.config_zero = (cfg_c, None) ->
  client.json_RetentionType (client.cfg_ImmutableSettings cfg_c)
  = validator.json_RetentionType js ->
  client.json_RetentionPeriod (client.cfg_ImmutableSettings cfg_c)
  = validator.json_RetentionPeriod js ->
  validator.validateCreate json_Unmarshal_v time_ParseDuration newSeed = Done None ->
  exists d : Duration,
    0 < d
    /\ validator.ParseImmutableSettings json_Unmarshal_v time_ParseDuration (Some pc)
       = (Some {| validator.RetentionType := "bucket";
                  validator.RetentionPeriod := d |}, None)
    /\ client.ParseImmutableSettings json_Unmarshal_c time_ParseDuration (Some pc)
       = (Some {| client.RetentionType := "bucket";
                  client.RetentionPeriod := d |}, None).
Proof.
  intros Hnb Hpc Hne Hv Hjs Hc Hty Hrp Hacc.
  destruct (validateCreate_accept_inv _ _ _ Hacc) as (nb' & n & Hnb' & P & C).
  assert (E : nb' = nb) by congruence. subst nb'.
  rewrite Hpc in P.
  rewrite (Parse_decoded _ _ pc cfg_v Hne Hv), Hjs in P.
  destruct (time_ParseDuration (validator.json_RetentionPeriod js)) as [d [e|]] eqn:Hd;
    [discriminate|].
  injection P as <-. destruct C as [Cty Cpos].
  cbn [validator.RetentionType validator.RetentionPeriod] in Cty, Cpos.
  exists d. split; [exact Cpos|]. split.
  - rewrite (Parse_decoded _ _ pc cfg_v Hne Hv), Hjs, Hd. now rewrite Cty.
  - rewrite (client_Parse_decoded _ _ pc cfg_c Hne Hc), Hty, Hrp, Cty, Hd.
    reflexivity.
Qed.

Section BucketOperations.

Import storageClient.

Variable Bucket_Create : string -> string -> BucketAttrs -> option goerror.
Variable Objects_Next : string -> string -> nat -> string + goerror.
Variable Object_Delete : string -> nat -> string -> option goerror.

(** X13. [CreateBucketIfNotExists] asks for a bucket with the given name
    and location, uniform bucket-level access, soft delete switched off
    and, exactly when settings are given, a locked retention policy of
    their period.  It returns nil exactly when the service created the
    bucket or answered with a googleapi error of code 409; an error it
    returns is the error of the service. *)
Theorem create_bucket_result (projectID bucketName region : string)
  (imSettings : option client.ImmutableSettings) :
  exists attrs : BucketAttrs,
    Name attrs = bucketName
    /\ Location attrs = region
    /\ attrs_UniformBucketLevelAccess attrs = {| Enabled := true |}
    /\ attrs_SoftDeletePolicy attrs = Some {| RetentionDuration := 0 |}
    /\ attrs_RetentionPolicy attrs
       = option_map (fun s => {| RetentionPeriod := client.RetentionPeriod s;
                                 IsLocked := true |}) imSettings
    /\ (CreateBucketIfNotExists Bucket_Create projectID bucketName region imSettings
        = None
        <-> Bucket_Create bucketName projectID attrs = None
            \/ exists msg,
                 Bucket_Create bucketName projectID attrs
                 = Some (GoogleAPIError 409 msg))
    /\ (forall err : goerror,
          CreateBucketIfNotExists Bucket_Create projectID bucketName region imSettings
          = Some err ->
          Bucket_Create bucketName projectID attrs = Some err
          /\ forall msg, err <> GoogleAPIError 409 msg).
Proof.
  unfold CreateBucketIfNotExists.
  match goal with
  | |- context [Bucket_Create bucketName projectID ?a] => exists a
  end.
  repeat (split; [first [reflexivity | now destruct imSettings]|]).
  destruct (Bucket_Create bucketName projectID _) as [err|].
  - destruct err as [code msg| | |msg].
    + unfold errCodeBucketAlreadyOwnedByYou.
      destruct (code =? 409) eqn:Ec.
      * apply Z.eqb_eq in Ec. subst code. split.
        -- split; [intros _; right; now exists msg | reflexivity].
        -- discriminate.
      * apply Z.eqb_neq in Ec. split.
        -- split; [discriminate|].
           intros [H|[m H]]; [discriminate | congruence].
        -- intros err H. injection H as <-. split; [reflexivity|].
           intros m. congruence.
    + split.
      * split; [discriminate | intros [H|[m H]]; discriminate].
      * intros err H. injection H as <-. split; [reflexivity | discriminate].
    + split.
      * split; [discriminate | intros [H|[m H]]; discriminate].
      * intros err H. injection H as <-. split; [reflexivity | discriminate].
    + split.
      * split; [discriminate | intros [H|[m H]]; discriminate].
      * intros err H. injection H as <-. split; [reflexivity | discriminate].
  - split; [split; [now left | reflexivity] | discriminate].
Qed.

Local Notation "'Loop'" := (deleteLoop Objects_Next Object_Delete).

(** While the listing yields objects whose deletion succeeds or finds them
    gone, the loop goes on to the next turn. *)
Lemma deleteLoop_run (bucketName prefix : string) (names : list string) :
  forall (fuel k : nat) (called : list string),
    (forall i name,
        nth_error names i = Some name ->
        Objects_Next bucketName prefix (k + i) = inl name
        /\ (Object_Delete bucketName (k + i) name = None
            \/ Object_Delete bucketName (k + i) name = Some ErrObjectNotExist)) ->
    Loop bucketName prefix (List.length names + fuel) k called
    = Loop bucketName prefix fuel (k + List.length names) (called ++ names)%list.
Proof.
  induction names as [|n names IH]; intros fuel k called H.
  - cbn [List.length Nat.add]. now rewrite Nat.add_0_r, app_nil_r.
  - cbn [List.length Nat.add deleteLoop].
    destruct (H 0%nat n eq_refl) as [Hn Hd]. rewrite Nat.add_0_r in Hn, Hd.
    rewrite Hn.
    assert (R : Loop bucketName prefix (List.length names + fuel) (S k)
                  (called ++ [n])%list
                = Loop bucketName prefix fuel (k + S (List.length names))
                    (called ++ n :: names)%list).
    { rewrite IH.
      - rewrite <- Nat.add_succ_comm, <- app_assoc. reflexivity.
      - intros i name Hi. rewrite Nat.add_succ_comm. exact (H (S i) name Hi). }
    destruct Hd as [Hd|Hd]; rewrite Hd; exact R.
Qed.

(** More fuel does not change a result. *)
Lemma deleteLoop_more_fuel (bucketName prefix : string) (fuel : nat) :
  forall (k : nat) (called : list string) (r : option goerror * list string)
         (extra : nat),
    Loop bucketName prefix fuel k called = Some r ->
    Loop bucketName prefix (fuel + extra) k called = Some r.
Proof.
  induction fuel as [|fuel IH]; intros k called r extra H; [discriminate|].
  cbn [Nat.add deleteLoop] in *.
  destruct (Objects_Next bucketName prefix k) as [name|err]; [|exact H].
  destruct (Object_Delete bucketName k name) as [err|].
  - destruct err; try exact H. now apply IH.
  - now apply IH.
Qed.

(** A nil result: the turns from [k] on listed objects, each deleted or
    gone, and then the listing was done. *)
Lemma deleteLoop_nil_inv (bucketName prefix : string) (fuel : nat) :
  forall (k : nat) (called out : list string),
    Loop bucketName prefix fuel k called = Some (None, out) ->
    exists names,
      out = (called ++ names)%list
      /\ Objects_Next bucketName prefix (k + List.length names) = inr IteratorDone
      /\ forall i name,
           nth_error names i = Some name ->
           Objects_Next bucketName prefix (k + i) = inl name
           /\ (Object_Delete bucketName (k + i) name = None
               \/ Object_Delete bucketName (k + i) name = Some ErrObjectNotExist).
Proof.
  induction fuel as [|fuel IH]; intros k called out H; [discriminate|].
  cbn [deleteLoop] in H.
  destruct (Objects_Next bucketName prefix k) as [name|err] eqn:Hn.
  - assert (G : Loop bucketName prefix fuel (S k) (called ++ [name])%list
                = Some (None, out) ->
                (Object_Delete bucketName k name = None
                 \/ Object_Delete bucketName k name = Some ErrObjectNotExist) ->
                exists names,
                  out = (called ++ names)%list
                  /\ Objects_Next bucketName prefix (k + List.length names)
                     = inr IteratorDone
                  /\ forall i name0,
                       nth_error names i = Some name0 ->
                       Objects_Next bucketName prefix (k + i) = inl name0
                       /\ (Object_Delete bucketName (k + i) name0 = None
                           \/ Object_Delete bucketName (k + i) name0
                              = Some ErrObjectNotExist)).
    { intros Hrec Hsoft.
      destruct (IH _ _ _ Hrec) as (names & Hout & Hend & Hall).
      exists (name :: names). split; [|split].
      - rewrite Hout, <- app_assoc. reflexivity.
      - cbn [List.length]. now rewrite <- Nat.add_succ_comm.
      - intros [|i] name0 Hi.
        + cbn in Hi. injection Hi as <-. now rewrite Nat.add_0_r.
        + rewrite <- Nat.add_succ_comm. exact (Hall i name0 Hi). }
    destruct (Object_Delete bucketName k name) as [err|] eqn:Hd.
    + destruct err; try discriminate. apply G; [exact H | now right].
    + apply G; [exact H | now left].
  - destruct err; try discriminate.
    injection H as <-. exists []. split; [now rewrite app_nil_r|].
    split; [now rewrite Nat.add_0_r|].
    intros [|i] name Hi; discriminate.
Qed.

(** X14. When the listing yields the objects [names] and is then done, and
    every deletion succeeds or reports that the object does not exist,
    [DeleteObjectsWithPrefix] returns nil after calling [Delete] on each
    listed object, once and in order. *)
Theorem delete_objects_success (bucketName prefix : string)
  (names : list string) (fuel : nat) :
  (forall k name,
      nth_error names k = Some name ->
      Objects_Next bucketName prefix k = inl name
      /\ (Object_Delete bucketName k name = None
          \/ Object_Delete bucketName k name = Some ErrObjectNotExist)) ->
  Objects_Next bucketName prefix (List.length names) = inr IteratorDone ->
  (List.length names < fuel)%nat ->
  DeleteObjectsWithPrefix Objects_Next Object_Delete fuel bucketName prefix
  = Some (None, names).
Proof.
  intros Hall Hend Hfuel. unfold DeleteObjectsWithPrefix.
  replace fuel with (List.length names + S (fuel - S (List.length names)))%nat by lia.
  rewrite deleteLoop_run; [|exact Hall].
  cbn [Nat.add deleteLoop app]. now rewrite Hend.
Qed.

(** X15. The first deletion that fails with an error other than "object
    does not exist" ends the call with that error: [Delete] was called on
    the objects listed up to the failing one and on nothing after it. *)
Theorem delete_objects_stops_at_failure (bucketName prefix : string)
  (before : list string) (victim : string) (err : goerror) (fuel : nat) :
  (forall k name,
      nth_error before k = Some name ->
      Objects_Next bucketName prefix k = inl name
      /\ (Object_Delete bucketName k name = None
          \/ Object_Delete bucketName k name = Some ErrObjectNotExist)) ->
  Objects_Next bucketName prefix (List.length before) = inl victim ->
  Object_Delete bucketName (List.length before) victim = Some err ->
  err <> ErrObjectNotExist ->
  (List.length before < fuel)%nat ->
  DeleteObjectsWithPrefix Objects_Next Object_Delete fuel bucketName prefix
  = Some (Some err, (before ++ [victim])%list).
Proof.
  intros Hall Hv Hd Herr Hfuel. unfold DeleteObjectsWithPrefix.
  replace fuel with (List.length before + S (fuel - S (List.length before)))%nat by lia.
  rewrite deleteLoop_run; [|exact Hall].
  cbn [Nat.add deleteLoop app]. rewrite Hv, Hd.
  destruct err; try reflexivity. congruence.
Qed.

(** X16. An error of the listing other than [iterator.Done] ends the call
    with that error, after the objects listed before it were deleted. *)
Theorem delete_objects_listing_error (bucketName prefix : string)
  (names : list string) (err : goerror) (fuel : nat) :
  (forall k name,
      nth_error names k = Some name ->
      Objects_Next bucketName prefix k = inl name
      /\ (Object_Delete bucketName k name = None
          \/ Object_Delete bucketName k name = Some ErrObjectNotExist)) ->
  Objects_Next bucketName prefix (List.length names) = inr err ->
  err <> IteratorDone ->
  (List.length names < fuel)%nat ->
  DeleteObjectsWithPrefix Objects_Next Object_Delete fuel bucketName prefix
  = Some (Some err, names).
Proof.
  intros Hall Hend Herr Hfuel. unfold DeleteObjectsWithPrefix.
  replace fuel with (List.length names + S (fuel - S (List.length names)))%nat by lia.
  rewrite deleteLoop_run; [|exact Hall].
  cbn [Nat.add deleteLoop app]. rewrite Hend.
  destruct err; try reflexivity. congruence.
Qed.

(** X17. A nil result is never given for an incomplete deletion: when
    [DeleteObjectsWithPrefix] returns nil, the listing ended with
    [iterator.Done] and [Delete] was called on every object it had yielded,
    each call succeeding or reporting that the object does not exist; and
    the result is the same for every larger bound on the turns. *)
Theorem delete_objects_nil_is_complete (bucketName prefix : string)
  (fuel : nat) (called : list string) :
  DeleteObjectsWithPrefix Objects_Next Object_Delete fuel bucketName prefix
  = Some (None, called) ->
  Objects_Next bucketName prefix (List.length called) = inr IteratorDone
  /\ (forall k name,
        nth_error called k = Some name ->
        Objects_Next bucketName prefix k = inl name
        /\ (Object_Delete bucketName k name = None
            \/ Object_Delete bucketName k name = Some ErrObjectNotExist))
  /\ (forall extra : nat,
        DeleteObjectsWithPrefix Objects_Next Object_Delete (fuel + extra)
          bucketName prefix
        = Some (None, called)).
Proof.
  unfold DeleteObjectsWithPrefix. intros H.
  destruct (deleteLoop_nil_inv _ _ _ _ _ _ H) as (names & Hout & Hend & Hall).
  cbn [app Nat.add] in Hout, Hend, Hall. subst called.
  split; [exact Hend|]. split; [exact Hall|].
  intros extra. now apply deleteLoop_more_fuel.
Qed.

End BucketOperations.

(** ** The decisions at concrete seeds and scripted services *)

Lemma create_accepted_iff_witness :
  linked.validateCreate (fixtures.seed (fixtures.settings "bucket" "96h")) = Done None.
Proof.
  assert (P : linked.ParseImmutableSettings (fixtures.settings "bucket" "96h")
              = (Some {| validator.RetentionType := "bucket";
                         validator.RetentionPeriod := 345600000000000 |}, None)).
  { vm_compute. reflexivity. }
  apply (proj2 (create_accepted_iff GoJSON.Unmarshal GoTime.ParseDuration
                  (fixtures.seed (fixtures.settings "bucket" "96h"))
                  {| ProviderConfig := fixtures.settings "bucket" "96h" |} eq_refl)).
  exists (Some {| validator.RetentionType := "bucket";
                  validator.RetentionPeriod := 345600000000000 |}).
  split; [exact P|]. split; [reflexivity | reflexivity].
Defined.

Lemma update_accepted_iff_witness :
  linked.validateUpdate (fixtures.seed None)
                        (fixtures.seed (fixtures.settings "bucket" "96h"))
  = Done None.
Proof.
  assert (P : linked.ParseImmutableSettings (fixtures.settings "bucket" "96h")
              = (Some {| validator.RetentionType := "bucket";
                         validator.RetentionPeriod := 345600000000000 |}, None)).
  { vm_compute. reflexivity. }
  apply (proj2 (update_accepted_iff GoJSON.Unmarshal GoTime.ParseDuration
                  (fixtures.seed None)
                  (fixtures.seed (fixtures.settings "bucket" "96h")))).
  exists {| ProviderConfig := None |},
         {| ProviderConfig := fixtures.settings "bucket" "96h" |},
         None,
         (Some {| validator.RetentionType := "bucket";
                  validator.RetentionPeriod := 345600000000000 |}).
  split; [reflexivity|]. split; [reflexivity|]. split; [reflexivity|].
  split; [exact P|]. split; [reflexivity | reflexivity].
Defined.

Lemma parse_errors_are_qualified_witness :
  linked.validateUpdate (fixtures.seed (fixtures.settings "bucket" "invalid"))
                        fixtures.seed_without_backup
  = Done (Some ("error parsing old immutable settings: "
                ++ "invalid retentionPeriod format: time: invalid duration "
                ++ dq ++ "invalid" ++ dq)).
Proof.
  assert (P : linked.ParseImmutableSettings (fixtures.settings "bucket" "invalid")
              = (None, Some ("invalid retentionPeriod format: time: invalid duration "
                             ++ dq ++ "invalid" ++ dq))).
  { vm_compute. reflexivity. }
  exact (proj1 (parse_errors_are_qualified GoJSON.Unmarshal GoTime.ParseDuration
                  (fixtures.seed (fixtures.settings "bucket" "invalid"))
                  fixtures.seed_without_backup)
               {| ProviderConfig := fixtures.settings "bucket" "invalid" |}
               None _ eq_refl P).
Defined.

Lemma accepted_updates_compose_witness :
  linked.validateUpdate (fixtures.seed None)
                        (fixtures.seed (fixtures.settings "bucket" "120h"))
  = Done None.
Proof.
  assert (H1 : linked.validateUpdate (fixtures.seed None)
                 (fixtures.seed (fixtures.settings "bucket" "96h")) = Done None).
  { vm_compute. reflexivity. }
  assert (H2 : linked.validateUpdate (fixtures.seed (fixtures.settings "bucket" "96h"))
                 (fixtures.seed (fixtures.settings "bucket" "120h")) = Done None).
  { vm_compute. reflexivity. }
  exact (proj1 (accepted_updates_compose GoJSON.Unmarshal GoTime.ParseDuration)
               _ _ _ H1 H2).
Defined.

Lemma accepted_history_stays_valid_witness :
  Forall (fun s => linked.validateCreate s = Done None)
         [fixtures.seed None;
          fixtures.seed (fixtures.settings "bucket" "96h");
          fixtures.seed (fixtures.settings "bucket" "120h")].
Proof.
  apply (accepted_history_stays_valid GoJSON.Unmarshal GoTime.ParseDuration).
  - vm_compute. reflexivity.
  - repeat constructor; vm_compute; reflexivity.
Defined.

Lemma validator_panics_iff_witness :
  linked.validateUpdate (fixtures.seed None) fixtures.seed_without_backup = Panic.
Proof.
  apply (proj2 (proj2 (validator_panics_iff GoJSON.Unmarshal GoTime.ParseDuration
                         (fixtures.seed None) fixtures.seed_without_backup))).
  right. exists {| ProviderConfig := None |}, None.
  split; [reflexivity|]. split; reflexivity.
Defined.

Lemma parse_none_iff_witness :
  linked.ParseImmutableSettings fixtures.settings_null = (None, None).
Proof.
  apply (proj2 (parse_none_iff GoJSON.Unmarshal GoTime.ParseDuration
                  fixtures.settings_null)).
  right.
  exists {| Raw := list_byte_of_string
                     ("{" ++ fixtures.q "immutableSettings" ++ ":null}") |}.
  split; [reflexivity|]. right. exists validator.config_zero.
  split; [vm_compute; reflexivity | reflexivity].
Defined.

Lemma parse_settings_inv_witness :
  exists js : validator.ImmutableSettingsJSON,
    validator.json_RetentionType js = "bucket"
    /\ GoTime.ParseDuration (validator.json_RetentionPeriod js)
       = (345600000000000, None).
Proof.
  assert (P : linked.ParseImmutableSettings (fixtures.settings "bucket" "96h")
              = (Some {| validator.RetentionType := "bucket";
                         validator.RetentionPeriod := 345600000000000 |}, None)).
  { vm_compute. reflexivity. }
  destruct (parse_settings_inv GoJSON.Unmarshal GoTime.ParseDuration _ _ _ P)
    as (_ & pc & cfg & js & _ & _ & _ & _ & Hty & Hd).
  exists js. split; [now rewrite <- Hty | exact Hd].
Defined.

Lemma parse_error_inv_witness :
  exists e' : string,
    "invalid retentionPeriod format: time: invalid duration " ++ dq ++ "invalid" ++ dq
    = "error while parsing immutable settings: " ++ e'
    \/ "invalid retentionPeriod format: time: invalid duration " ++ dq ++ "invalid" ++ dq
       = "invalid retentionPeriod format: " ++ e'.
Proof.
  assert (P : linked.ParseImmutableSettings (fixtures.settings "bucket" "invalid")
              = (None, Some ("invalid retentionPeriod format: time: invalid duration "
                             ++ dq ++ "invalid" ++ dq))).
  { vm_compute. reflexivity. }
  destruct (parse_error_inv GoJSON.Unmarshal GoTime.ParseDuration _ _ _ P)
    as (_ & pc & cfg & _ & _ & [(e' & _ & He)|(js & d & e' & _ & _ & _ & He)]).
  - exists e'. now left.
  - exists e'. now right.
Defined.

Lemma storage_parse_result_witness :
  exists cfg : client.config,
    client.json_RetentionType (client.cfg_ImmutableSettings cfg) = "bucket"
    /\ GoTime.ParseDuration
         (client.json_RetentionPeriod (client.cfg_ImmutableSettings cfg))
       = (-345600000000000, None).
Proof.
  assert (P : linked.client_ParseImmutableSettings (fixtures.settings "bucket" "-96h")
              = (Some {| client.RetentionType := "bucket";
                         client.RetentionPeriod := -345600000000000 |}, None)).
  { vm_compute. reflexivity. }
  destruct (proj2 (storage_parse_result GoJSON.Unmarshal GoTime.ParseDuration) _ _ _ P)
    as (_ & _ & pc & cfg & _ & _ & _ & Hty & Hd).
  exists cfg. split; [exact Hty | exact Hd].
Defined.

Lemma accepted_settings_are_provisionable_witness :
  exists d : Duration,
    0 < d
    /\ linked.ParseImmutableSettings (fixtures.settings "bucket" "96h")
       = (Some {| validator.RetentionType := "bucket";
                  validator.RetentionPeriod := d |}, None)
    /\ linked.client_ParseImmutableSettings (fixtures.settings "bucket" "96h")
       = (Some {| client.RetentionType := "bucket";
                  client.RetentionPeriod := d |}, None).
Proof.
  assert (Hv : GoJSON.Unmarshal
                 (list_byte_of_string
                    ("{" ++ fixtures.q "immutableSettings" ++ ":{"
                     ++ fixtures.q "retentionType" ++ ":" ++ fixtures.q "bucket"
                     ++ "," ++ fixtures.q "retentionPeriod" ++ ":"
                     ++ fixtures.q "96h" ++ "}}")) validator.config_zero
               = ({| validator.cfg_ImmutableSettings :=
                       Some {| validator.json_RetentionType := "bucket";
                               validator.json_RetentionPeriod := "96h" |} |}, None)).
  { vm_compute. reflexivity. }
  assert (Hc : GoJSON.Unmarshal
                 (list_byte_of_string
                    ("{" ++ fixtures.q "immutableSettings" ++ ":{"
                     ++ fixtures.q "retentionType" ++ ":" ++ fixtures.q "bucket"
                     ++ "," ++ fixtures.q "retentionPeriod" ++ ":"
                     ++ fixtures.q "96h" ++ "}}")) client.config_zero
               = ({| client.cfg_ImmutableSettings :=
                       {| client.json_RetentionType := "bucket";
                          client.json_RetentionPeriod := "96h" |} |}, None)).
  { vm_compute. reflexivity. }
  assert (Ha : linked.validateCreate (fixtures.seed (fixtures.settings "bucket" "96h"))
               = Done None).
  { vm_compute. reflexivity. }
  assert (Hne : list_byte_of_string
                  ("{" ++ fixtures.q "immutableSettings" ++ ":{"
                   ++ fixtures.q "retentionType" ++ ":" ++ fixtures.q "bucket"
                   ++ "," ++ fixtures.q "retentionPeriod" ++ ":"
                   ++ fixtures.q "96h" ++ "}}") <> []).
  { vm_compute. discriminate. }
  exact (accepted_settings_are_provisionable
           GoJSON.Unmarshal GoJSON.Unmarshal GoTime.ParseDuration
           (fixtures.seed (fixtures.settings "bucket" "96h"))
           {| ProviderConfig := fixtures.settings "bucket" "96h" |}
           {| Raw := list_byte_of_string
                       ("{" ++ fixtures.q "immutableSettings" ++ ":{"
                        ++ fixtures.q "retentionType" ++ ":" ++ fixtures.q "bucket"
                        ++ "," ++ fixtures.q "retentionPeriod" ++ ":"
                        ++ fixtures.q "96h" ++ "}}") |}
           _ _ _ eq_refl eq_refl Hne Hv eq_refl Hc eq_refl eq_refl Ha).
Defined.

Lemma create_bucket_result_witness :
  storageClient.CreateBucketIfNotExists
    (script.create_of (Some (storageClient.GoogleAPIError 409 "already owned")))
    "project" "backups" "europe-west1"
    (Some {| client.RetentionType := "bucket";
             client.RetentionPeriod := 345600000000000 |})
  = None.
Proof.
  destruct (create_bucket_result
              (script.create_of (Some (storageClient.GoogleAPIError 409 "already owned")))
              "project" "backups" "europe-west1"
              (Some {| client.RetentionType := "bucket";
                       client.RetentionPeriod := 345600000000000 |}))
    as (attrs & _ & _ & _ & _ & _ & Hiff & _).
  apply (proj2 Hiff). right. exists "already owned". reflexivity.
Defined.

Lemma delete_objects_success_witness :
  storageClient.DeleteObjectsWithPrefix
    (script.next_of ["etcd/1"; "etcd/2"; "etcd/3"] storageClient.IteratorDone)
    (script.delete_of "etcd/2" "none")
    4 "backups" "etcd/"
  = Some (None, ["etcd/1"; "etcd/2"; "etcd/3"]).
Proof.
  apply delete_objects_success.
  - intros k name H. destruct k as [|[|[|k]]]; cbn in H.
    1-3: injection H as <-; split; [reflexivity | vm_compute; auto].
    destruct k; discriminate.
  - reflexivity.
  - cbn. lia.
Defined.

Lemma delete_objects_stops_at_failure_witness :
  storageClient.DeleteObjectsWithPrefix
    (script.next_of ["etcd/1"; "etcd/2"; "etcd/3"] storageClient.IteratorDone)
    (script.delete_of "none" "etcd/2")
    4 "backups" "etcd/"
  = Some (Some (storageClient.GoogleAPIError 403 "retention policy not met"),
          ["etcd/1"; "etcd/2"]).
Proof.
  apply (delete_objects_stops_at_failure _ _ "backups" "etcd/" ["etcd/1"] "etcd/2").
  - intros k name H. destruct k as [|k]; cbn in H.
    + injection H as <-. split; [reflexivity | vm_compute; auto].
    + destruct k; discriminate.
  - reflexivity.
  - reflexivity.
  - discriminate.
  - cbn. lia.
Defined.

Lemma delete_objects_listing_error_witness :
  storageClient.DeleteObjectsWithPrefix
    (script.next_of ["etcd/1"; "etcd/2"] (storageClient.OtherError "context canceled"))
    (script.delete_of "none" "none")
    3 "backups" "etcd/"
  = Some (Some (storageClient.OtherError "context canceled"), ["etcd/1"; "etcd/2"]).
Proof.
  apply delete_objects_listing_error.
  - intros k name H. destruct k as [|[|k]]; cbn in H.
    1-2: injection H as <-; split; [reflexivity | vm_compute; auto].
    destruct k; discriminate.
  - reflexivity.
  - discriminate.
  - cbn. lia.
Defined.

Lemma delete_objects_nil_is_complete_witness :
  storageClient.DeleteObjectsWithPrefix
    (script.next_of ["etcd/1"; "etcd/2"; "etcd/3"] storageClient.IteratorDone)
    (script.delete_of "etcd/2" "none")
    (4 + 100) "backups" "etcd/"
  = Some (None, ["etcd/1"; "etcd/2"; "etcd/3"]).
Proof.
  assert (H : storageClient.DeleteObjectsWithPrefix
                (script.next_of ["etcd/1"; "etcd/2"; "etcd/3"] storageClient.IteratorDone)
                (script.delete_of "etcd/2" "none")
                4 "backups" "etcd/"
              = Some (None, ["etcd/1"; "etcd/2"; "etcd/3"])).
  { vm_compute. reflexivity. }
  exact (proj2 (proj2 (delete_objects_nil_is_complete _ _ _ _ _ _ H)) 100%nat).
Defined.

(** * Accepted updates as an order on seeds *)

Section Order.

Variable json_Unmarshal : list byte -> validator.config -> validator.config * error.
Variable time_ParseDuration : string -> Duration * error.

Local Notation "'Parse'" :=
  (validator.ParseImmutableSettings json_Unmarshal time_ParseDuration).
Local Notation "'Update'" :=
  (validator.validateUpdate json_Unmarshal time_ParseDuration).

Import validator policy.

(** X18. Updating a seed to itself is accepted exactly when the seed has a
    backup whose payload parses without error, whether it holds settings or
    not and whatever their shape. *)
Theorem update_to_itself_iff (seed : Seed) :
  Update seed seed = Done None
  <-> exists b o,
        Backup (Spec seed) = Some b /\ Parse (ProviderConfig b) = (o, None).
Proof.
  split.
  - intros H.
    destruct (validateUpdate_accept_inv _ _ _ _ H) as (ob & _ & o & _ & Hob & _ & Ho & _).
    now exists ob, o.
  - intros (b & o & Hb & Ho).
    apply (validateUpdate_accept_intro _ _ seed seed b b o o Hb Hb Ho Ho).
    destruct o as [s|]; cbn; [split; [lia | reflexivity] | exact I].
Qed.

(** X19. An accepted update can be taken back only when it changed
    nothing: when the update from [a] to [b] and the update from [b] to
    [a] are both accepted, the two payloads parse to the same result. *)
Theorem reversible_update_changes_nothing (a b : Seed) :
  Update a b = Done None ->
  Update b a = Done None ->
  exists ab bb,
    Backup (Spec a) = Some ab
    /\ Backup (Spec b) = Some bb
    /\ Parse (ProviderConfig ab) = Parse (ProviderConfig bb).
Proof.
  intros Hab Hba.
  destruct (validateUpdate_accept_inv _ _ _ _ Hab)
    as (ab & bb & sa & sb & Ha & Hb & Pa & Pb & T1).
  destruct (validateUpdate_accept_inv _ _ _ _ Hba)
    as (bb' & ab' & sb' & sa' & Hb' & Ha' & Pb' & Pa' & T2).
  assert (E : bb' = bb) by congruence. subst bb'.
  assert (E : ab' = ab) by congruence. subst ab'.
  assert (E : sb' = sb) by congruence. subst sb'.
  assert (E : sa' = sa) by congruence. subst sa'.
  exists ab, bb. split; [exact Ha|]. split; [exact Hb|].
  rewrite Pa, Pb. f_equal.
  destruct sa as [[ta pa]|], sb as [[tb pb]|]; cbn in T1, T2; try tauto.
  destruct T1 as [L1 E1], T2 as [L2 E2].
  f_equal. f_equal; [congruence | lia].
Qed.

End Order.

Lemma update_to_itself_iff_witness :
  linked.validateUpdate (fixtures.seed (fixtures.settings "foo" "-5h"))
                        (fixtures.seed (fixtures.settings "foo" "-5h"))
  = Done None
  /\ linked.validateUpdate (fixtures.seed None) (fixtures.seed None) = Done None.
Proof.
  assert (P : linked.ParseImmutableSettings (fixtures.settings "foo" "-5h")
              = (Some {| validator.RetentionType := "foo";
                         validator.RetentionPeriod := -18000000000000 |}, None)).
  { vm_compute. reflexivity. }
  split.
  - apply (proj2 (update_to_itself_iff GoJSON.Unmarshal GoTime.ParseDuration
                    (fixtures.seed (fixtures.settings "foo" "-5h")))).
    exists {| ProviderConfig := fixtures.settings "foo" "-5h" |},
           (Some {| validator.RetentionType := "foo";
                    validator.RetentionPeriod := -18000000000000 |}).
    split; [reflexivity | exact P].
  - apply (proj2 (update_to_itself_iff GoJSON.Unmarshal GoTime.ParseDuration
                    (fixtures.seed None))).
    exists {| ProviderConfig := None |}, None. split; reflexivity.
Defined.

Lemma reversible_update_changes_nothing_witness :
  exists ab bb : SeedBackup,
    Backup (Spec (fixtures.seed (fixtures.settings "bucket" "96h"))) = Some ab
    /\ Backup (Spec (fixtures.seed (fixtures.settings "bucket" "5760m"))) = Some bb
    /\ linked.ParseImmutableSettings (ProviderConfig ab)
       = linked.ParseImmutableSettings (ProviderConfig bb).
Proof.
  assert (H1 : linked.validateUpdate
                 (fixtures.seed (fixtures.settings "bucket" "96h"))
                 (fixtures.seed (fixtures.settings "bucket" "5760m")) = Done None).
  { vm_compute. reflexivity. }
  assert (H2 : linked.validateUpdate
                 (fixtures.seed (fixtures.settings "bucket" "5760m"))
                 (fixtures.seed (fixtures.settings "bucket" "96h")) = Done None).
  { vm_compute. reflexivity. }
  exact (reversible_update_changes_nothing GoJSON.Unmarshal GoTime.ParseDuration
           _ _ H1 H2).
Defined.
